(** * redux-quest: the [quest] higher-order component and the legacy [withData]

    A shallow embedding of [src/quest.js] (the lifecycle binder around the
    store commands [startQuest] / [resolveQuest]) and of the legacy
    [withData] component, together with the properties the specification
    states about them.

    Modelling conventions.
    - JavaScript values are the inductive [value]; objects are association
      lists of their own enumerable properties in insertion order (the order
      [Object.keys] reports).  Members inherited from [Object.prototype] are
      outside the model.
    - Code that can throw returns a [result]; code that also touches the
      module-level [promises] object or dispatches to the store runs in the
      state-and-error monad [M] over a [World].
    - Functions supplied by the application ([query], [fetchOnce],
      [refetchWhen], a hand-written [then]) are named by a [fn_id] and
      interpreted by [call] of the environment [Env]; they may throw but do
      not touch the [World].
    - Of the stages [quest] composes, the two store connections, the class
      component, the programatic methods and the five data-mapping stages
      ([mapData], [mapToProps], [mapDirect], [waitForData], [defaultData])
      are embedded; the last one, [omitProps], comes from ./utils, which is
      not among the sources, and is not. *)

From Stdlib Require Import ZArith Ascii String.
From stdpp Require Import base option strings pretty list gmap.

Open Scope string_scope.
Set Warnings "-register-all".

(** ** JavaScript values *)

Module JS.

Definition fn_id := nat.

(** A native promise: either one handed to us by the store's [dispatch],
    or the promise [p.then(() => { delete promises[key]; })] that
    quest.js derives from it. *)
Inductive promise : Type :=
| PExt (id : nat)
| PThenCleanup (p : promise) (key : string).

Inductive value : Type :=
| VUndefined
| VNull
| VBool (b : bool)
| VNum (n : Z)
| VStr (s : string)
| VObj (fields : list (string * value))
| VFun (f : fn_id)                          (* supplied by the application *)
| VNever                                    (* never = () => false *)
| VBound (f : value) (args : list value)    (* f.bind(null, ...args) *)
| VCleanup (key : string)                   (* () => { delete promises[key]; } *)
| VMethod (method : string) (props : value) (* query => props.updateData(resolver[method]({...})) *)
| VLegacyMethod (method : string) (props : value) (* withData: options => resolver[method]({...}) *)
| VLegacyGet (props : value)                (* withData: () => props.update() *)
| VPromise (p : promise)
| VPromiseThen.                             (* Promise.prototype.then *)

Inductive exn : Type :=
| InvariantViolation (msg : string)
| TypeError (msg : string)
| ReferenceError (name : string)
| Thrown (v : value).                       (* raised by application code *)

Inductive result (A : Type) : Type :=
| Ok (a : A)
| Throw (e : exn).
Global Arguments Ok {A} a.
Global Arguments Throw {A} e.

Global Instance result_ret : MRet result := fun A a => Ok a.
Global Instance result_bind : MBind result := fun A B f m =>
  match m with
  | Ok a => f a
  | Throw e => Throw e
  end.

(** [typeof v] *)
Definition typeof (v : value) : string :=
  match v with
  | VUndefined => "undefined"
  | VNull => "object"
  | VBool _ => "boolean"
  | VNum _ => "number"
  | VStr _ => "string"
  | VObj _ => "object"
  | VFun _ | VNever | VBound _ _ | VCleanup _ | VMethod _ _
  | VLegacyMethod _ _ | VLegacyGet _ | VPromiseThen => "function"
  | VPromise _ => "object"
  end.

(** ToBoolean *)
Definition truthy (v : value) : bool :=
  match v with
  | VUndefined | VNull => false
  | VBool b => b
  | VNum n => negb (n =? 0)%Z
  | VStr s => negb (String.eqb s "")
  | _ => true
  end.

(** [a || b] once both operands are evaluated; where the right operand can
    throw, the short circuit is written out at the use. *)
Definition or_ (a b : value) : value := if truthy a then a else b.
(** [!!a] *)
Definition to_bool (a : value) : value := VBool (truthy a).

Fixpoint assoc (name : string) (fields : list (string * value)) : option value :=
  match fields with
  | [] => None
  | (k, v) :: rest => if String.eqb k name then Some v else assoc name rest
  end.

(** [o[name]] / [o.name]: reading a member of [undefined] or [null]
    throws; a native promise has a [then] method; everything else answers
    with its own property or [undefined]. *)
Definition get_prop (o : value) (name : string) : result value :=
  match o with
  | VUndefined => Throw (TypeError ("Cannot read property '" ++ name ++ "' of undefined"))
  | VNull => Throw (TypeError ("Cannot read property '" ++ name ++ "' of null"))
  | VObj fields => Ok (default VUndefined (assoc name fields))
  | VPromise _ => Ok (if String.eqb name "then" then VPromiseThen else VUndefined)
  | _ => Ok VUndefined
  end.

(** [{...o, [name]: v}]: the key keeps its position when it is already
    present and is appended otherwise. *)
Fixpoint set_field (name : string) (v : value) (fields : list (string * value))
  : list (string * value) :=
  match fields with
  | [] => [(name, v)]
  | (k, w) :: rest =>
      if String.eqb k name then (k, v) :: rest else (k, w) :: set_field name v rest
  end.

(** [{...a, ...b}] on own properties. *)
Definition spread (a b : list (string * value)) : list (string * value) :=
  fold_left (fun acc kv => set_field kv.1 kv.2 acc) b a.

(** The own properties an object spread [{...v}] copies. *)
Definition own_fields (v : value) : list (string * value) :=
  match v with
  | VObj fields => fields
  | _ => []
  end.

(** [Object.keys(o)] for a plain object. *)
Definition object_keys (o : value) : list string := (own_fields o).*1.

(** [invariant(condition, message)] of the `invariant` package. *)
Definition invariant (condition : bool) (message : string) : result unit :=
  if condition then Ok tt else Throw (InvariantViolation message).

Definition is_ok {A} (r : result A) : bool :=
  match r with Ok _ => true | Throw _ => false end.

(** recompose's [withProps(mapper)]: [props => ({...props, ...mapper(props)})] *)
Definition withProps (mapper : value → result value) (props : value)
  : result value :=
  extra ← mapper props;
  Ok (VObj (spread (own_fields props) (own_fields extra))).

(** The entries an object spread [{...v}] copies: the own properties of an
    object, the characters of a string under their indices, nothing for
    the other values. *)
Fixpoint string_entries (n : nat) (s : string) : list (string * value) :=
  match s with
  | EmptyString => []
  | String c rest =>
      (pretty n, VStr (String c EmptyString)) :: string_entries (S n) rest
  end.

Definition spread_of (v : value) : list (string * value) :=
  match v with
  | VStr s => string_entries 0 s
  | _ => own_fields v
  end.

End JS.
Import JS.

(** ** The store boundary *)

Module Store.

(** Modelled from the spec: the shape of a Resource Record is fixed by
    ./reducer, which is not among the sources; the specification gives it
    the four fields [loading], [completed], [error] and [data]. *)
Record ResourceRecord : Type := {
  loading : value;
  completed : value;
  error : value;
  data : value;
}.

(** The record as the JavaScript object the components read. *)
Definition record_obj (r : ResourceRecord) : value :=
  VObj [("loading", loading r); ("completed", completed r);
        ("error", error r); ("data", data r)].

(** Modelled from the spec: [defaultState] is imported from ./reducer, which
    is not among the sources; the specification gives the canonical default
    record as loading false, completed false, error null, data null. *)
Definition defaultRecord : ResourceRecord :=
  {| loading := VBool false; completed := VBool false;
     error := VNull; data := VNull |}.

Definition defaultState : value := record_obj defaultRecord.

(** Modelled from the spec: [startQuest] and [resolveQuest] are imported
    from ./actions, which is not among the sources; the specification lists
    them as the two commands START(key, fetcher) and RESOLVE(key, value)
    issued to the store.  A command is kept as data: what the store does
    with it is the store's business. *)
Inductive action : Type :=
| StartQuest (key : string) (fetcher : value)
| ResolveQuest (key : string) (data : value).

(** How a settled promise ended. *)
Inductive outcome : Type :=
| Fulfilled (v : value)
| Rejected (reason : value).

End Store.
Import Store.

(** ** quest.js *)

Module Quest.

(** The module-level [promises] object and the commands dispatched so far. *)
Record World : Type := {
  promises : gmap string value;
  dispatched : list action;
}.

(** Code that can throw and that acts on the [World]; what was done before
    an exception stays done. *)
Definition M (A : Type) : Type := World → result A * World.

#[global] Instance M_ret : MRet M := λ A a w, (Ok a, w).
#[global] Instance M_bind : MBind M := λ A B f m w,
  match m w with
  | (Ok a, w') => f a w'
  | (Throw e, w') => (Throw e, w')
  end.

Definition lift {A} (r : result A) : M A := λ w, (r, w).

(** [promises[key]] *)
Definition peek (key : string) : M value := λ w,
  (Ok (default VUndefined (promises w !! key)), w).

(** [promises[key] = v] *)
Definition register (key : string) (v : value) : M unit := λ w,
  (Ok tt, {| promises := <[key := v]> (promises w); dispatched := dispatched w |}).

(** The options of [quest] once the parameter pattern has applied its
    defaults. *)
Record Options : Type := {
  query : value;
  resolver : value;
  mapData : value;
  mapToProps : value;
  fetchOnServer : value;
  fetchOnce : value;
  refetchWhen : value;
  defaultData : value;
  waitForData : value;
  mapDirect : value;
}.

(** A default in a destructuring pattern replaces [undefined] only. *)
Definition or_default (v d : value) : value :=
  match v with
  | VUndefined => d
  | _ => v
  end.

(** The parameter pattern of [quest]. *)
Definition destructure (options : value) : result Options :=
  query ← get_prop options "query";
  resolver ← get_prop options "resolver";
  mapData ← get_prop options "mapData";
  mapToProps ← get_prop options "mapToProps";
  fetchOnServer ← get_prop options "fetchOnServer";
  fetchOnce ← get_prop options "fetchOnce";
  refetchWhen ← get_prop options "refetchWhen";
  defaultData ← get_prop options "defaultData";
  waitForData ← get_prop options "waitForData";
  mapDirect ← get_prop options "mapDirect";
  Ok {| query := or_default query VNull;
        resolver := resolver;
        mapData := mapData;
        mapToProps := mapToProps;
        fetchOnServer := or_default fetchOnServer (VBool true);
        fetchOnce := fetchOnce;
        refetchWhen := or_default refetchWhen VNever;
        defaultData := defaultData;
        waitForData := or_default waitForData (VBool false);
        mapDirect := or_default mapDirect (VBool false) |}.

(** The three [invariant] calls that open [quest], and [var key =
    resolver.key].  The composition of higher-order components that follows
    them evaluates nothing of the resolver. *)
Definition quest_setup (o : Options) : result string :=
  invariant (String.eqb (typeof (resolver o)) "object")
            "quests must be passed a resolver";;
  k ← get_prop (resolver o) "key";
  invariant (String.eqb (typeof k) "string")
            "resolvers must contain a valid key";;
  g ← get_prop (resolver o) "get";
  invariant (String.eqb (typeof g) "function")
            "resolvers must contain a get() method";;
  match k with
  | VStr key => Ok key
  | _ => Throw (InvariantViolation "resolvers must contain a valid key")
  end.

Definition quest (options : value) : result (Options * string) :=
  o ← destructure options;
  key ← quest_setup o;
  Ok (o, key).

(** What the specification calls a conforming resolver: an object with a
    string [key] and a [get] function. *)
Definition conforming (r : value) : bool :=
  match r with
  | VObj fields =>
      match assoc "key" fields, assoc "get" fields with
      | Some (VStr _), Some g => String.eqb (typeof g) "function"
      | _, _ => false
      end
  | _ => false
  end.

(** What quest.js takes from its surroundings: the functions of the
    application, what the store's [dispatch] hands back for a command (given
    the commands before it), and the host's global object. *)
Record Env : Type := {
  call : fn_id → list value → result value;
  dispatch_returns : list action → action → value;
  globals : list (string * value);
}.

(** The names bound at the top level of quest.js: its imports and its own
    declarations. *)
Definition module_scope : list string :=
  ["invariant"; "React"; "compose"; "connect"; "when"; "mapProps";
   "withProps"; "renderNothing"; "omitProps"; "startQuest"; "resolveQuest";
   "defaultState"; "never"; "promises"; "quest"; "hasData"; "hasError"].

Section WithEnv.

Variable env : Env.
Variable o : Options.
Variable key : string.

(** Calling a function value.  The callees of quest.js are options of the
    configuration, which exists before any closure of the module does:
    application functions, [never], or a bound application function. *)
Fixpoint invoke (f : value) (args : list value) : result value :=
  match f with
  | VFun id => call env id args
  | VNever => Ok (VBool false)
  | VBound g bound => invoke g (bound ++ args)
  | _ => Throw (TypeError "not a function")
  end.

(** [f.bind(null, ...args)] *)
Definition bind_null (f : value) (args : list value) : result value :=
  match f with
  | VUndefined => Throw (TypeError "Cannot read property 'bind' of undefined")
  | VNull => Throw (TypeError "Cannot read property 'bind' of null")
  | _ => if String.eqb (typeof f) "function" then Ok (VBound f args)
         else Throw (TypeError "bind is not a function")
  end.

(** Resolving a free identifier of quest.js whose module-level binding, if
    there is one, holds [binding]: the module scope first, then the global
    object, else a ReferenceError. *)
Definition resolve_ident (name : string) (binding : value) : result value :=
  if bool_decide (name ∈ module_scope) then Ok binding
  else match assoc name (globals env) with
       | Some v => Ok v
       | None => Throw (ReferenceError name)
       end.

(** First [connect]: [state => ({ [key]: state._data_[key] || defaultState })] *)
Definition mapState (state : value) : result value :=
  store ← get_prop state "_data_";
  entry ← get_prop store key;
  v ← (if truthy entry then Ok entry
       else resolve_ident "defaultState" defaultState);
  Ok (VObj [(key, v)]).

(** Second [connect]: [state => ({ [key]: state._data_[key] || initialState })] *)
Definition mapStateAgain (state : value) : result value :=
  store ← get_prop state "_data_";
  entry ← get_prop store key;
  v ← (if truthy entry then Ok entry
       else resolve_ident "initialState" VUndefined);
  Ok (VObj [(key, v)]).

(** [dispatch(a)]: the command reaches the store, and the store answers. *)
Definition dispatch (a : action) : M value := λ w,
  (Ok (dispatch_returns env (dispatched w) a),
   {| promises := promises w; dispatched := (dispatched w ++ [a])%list |}).

(** [typeof query === 'function' ? query(nextProps || props) : query] *)
Definition options_query (props nextProps : value) : result value :=
  if String.eqb (typeof (query o)) "function"
  then invoke (query o) [or_ nextProps props]
  else Ok (query o).

(** [updateData(next, nextProps)] of the first [connect]; [props] are the
    props [mapDispatchToProps] was given. *)
Definition updateData (props next nextProps : value) : M value :=
  q ← lift (options_query props nextProps);
  let options := VObj [("query", q)] in
  match next with
  | VUndefined =>
      get ← lift (get_prop (resolver o) "get");
      fetcher ← lift (bind_null get [options]);
      dispatch (StartQuest key fetcher)
  | _ =>
      if String.eqb (typeof next) "function"
      then dispatch (StartQuest key next)
      else dispatch (ResolveQuest key next)
  end.

(** A mounted instance of the class component: [this.fetched],
    [this.props], and the props its [updateData] closes over. *)
Record Instance : Type := {
  fetched : bool;
  props : value;
  ownProps : value;
}.

Definition set_fetched (b : bool) (i : Instance) : Instance :=
  {| fetched := b; props := props i; ownProps := ownProps i |}.

(** [this.canFetchOnce(nextProps)]; falling off the end returns
    [undefined]. *)
Definition canFetchOnce (i : Instance) (nextProps : value) : result value :=
  stop ← (if fetched i then Ok true
          else rec ← get_prop (props i) key;
               ready ← get_prop rec "ready";
               Ok (truthy ready));
  if stop : bool then Ok (VBool false) else
  go ← (if negb (truthy (fetchOnce o)) then Ok true
        else rec ← get_prop (props i) key;
             err ← get_prop rec "error";
             Ok (truthy err));
  if go : bool then Ok (VBool true) else
  if negb (String.eqb (typeof (fetchOnce o)) "function")
  then Ok (to_bool (fetchOnce o)) else
  wanted ← invoke (fetchOnce o) [or_ nextProps (props i)];
  if truthy wanted then Ok (VBool true) else Ok VUndefined.

(** [r.then(() => { delete promises[key]; })] *)
Definition then_cleanup (r : value) : result value :=
  match r with
  | VPromise p => Ok (VPromise (PThenCleanup p key))
  | _ => f ← get_prop r "then"; invoke f [VCleanup key]
  end.

(** [if (r && r.then) { promises[key] = r.then(() => { delete
    promises[key]; }); }] *)
Definition track (r : value) : M unit :=
  thenable ← lift (if truthy r
                   then t ← get_prop r "then"; Ok (truthy t)
                   else Ok false);
  if thenable : bool
  then p ← lift (then_cleanup r); register key p
  else mret tt.

(** [componentWillMount()], with its return value. *)
Definition componentWillMount (i : Instance) : M (Instance * value) :=
  let i := set_fetched false i in
  go ← lift (if truthy (fetchOnServer o)
             then c ← canFetchOnce i VUndefined; Ok (truthy c)
             else Ok false);
  if go : bool then
    r ← updateData (ownProps i) VUndefined VUndefined;
    track r;;
    mret (i, r)
  else
    rec ← lift (get_prop (props i) key);
    loading ← lift (get_prop rec "loading");
    if truthy loading then
      p ← peek key;
      mret (i, if truthy p then p else VUndefined)
    else mret (i, VUndefined).

(** [componentDidMount()] *)
Definition componentDidMount (i : Instance) : M Instance :=
  go ← lift (if negb (truthy (fetchOnServer o))
             then c ← canFetchOnce i VUndefined; Ok (truthy c)
             else Ok false);
  if go : bool then
    let i := set_fetched true i in
    updateData (ownProps i) VUndefined VUndefined;;
    mret i
  else mret i.

(** [componentWillReceiveProps(nextProps)] *)
Definition componentWillReceiveProps (i : Instance) (nextProps : value)
  : M Instance :=
  go ← lift (c ← canFetchOnce i nextProps;
             if truthy c then Ok true
             else again ← invoke (refetchWhen o) [props i; nextProps];
                  Ok (truthy again));
  if go : bool then
    let i := set_fetched true i in
    updateData (ownProps i) VUndefined nextProps;;
    mret i
  else mret i.

(** The names [Object.keys(resolver).filter(key => typeof key ===
    'function')] keeps: the test looks at the key, a string. *)
Definition method_names : list string :=
  List.filter (λ k, String.eqb (typeof (VStr k)) "function")
              (object_keys (resolver o)).

(** One step of the [reduce] that adds the programatic methods. *)
Definition add_method (props : value) (acc : result value) (method : string)
  : result value :=
  accProps ← acc;
  rec ← get_prop props key;
  Ok (VObj (set_field key
              (VObj (set_field method (VMethod method props) (own_fields rec)))
              (own_fields accProps))).

(** The mapper of [withProps] in quest.js. *)
Definition programaticMethods (props : value) : result value :=
  fold_left (add_method props) method_names (Ok (VObj [])).

(** The body of a method closure [VMethod method props] applied to
    [query]; [ownProps] are the props its [updateData] closes over. *)
Definition method_body (ownProps props : value) (method : string)
  (query : value) : M value :=
  rec ← lift (get_prop props key);
  d ← lift (get_prop rec "data");
  f ← lift (get_prop (resolver o) method);
  next ← lift (invoke f [VObj (set_field "data" d (spread_of query))]);
  updateData ownProps next VUndefined.

(** [delete promises[key]], the body of the cleanup closure. *)
Definition cleanup (w : World) : World :=
  {| promises := delete key (promises w); dispatched := dispatched w |}.

End WithEnv.

(** The reactions of a native promise chain once the promise the store
    returned has settled with [root]: [p.then(onFulfilled)] runs
    [onFulfilled] when [p] fulfils and then fulfils with its result; when
    [p] rejects it rejects with the same reason and [onFulfilled] is not
    run. *)
Fixpoint settle (p : promise) (root : outcome) (w : World) : outcome * World :=
  match p with
  | PExt _ => (root, w)
  | PThenCleanup q key =>
      match settle q root w with
      | (Fulfilled _, w') => (Fulfilled VUndefined, cleanup key w')
      | (Rejected reason, w') => (Rejected reason, w')
      end
  end.


(** What a step did to the command log: nothing, or exactly one START
    for [key]. *)
Definition quiet {A} (m : M A) (w : World) : Prop :=
  dispatched (m w).2 = dispatched w.

Definition fetches {A} (key : string) (m : M A) (w : World) : Prop :=
  ∃ fetcher,
    dispatched (m w).2 = (dispatched w ++ [StartQuest key fetcher])%list.

(** A test in a condition: it passes when it returns a truthy value. *)
Definition yes (r : result value) : bool :=
  match r with
  | Ok c => truthy c
  | Throw _ => false
  end.

(** [r && r.then] as a test. *)
Definition thenable (r : value) : bool :=
  if truthy r then yes (get_prop r "then") else false.

(** The world once [cmd] has been dispatched. *)
Definition sent (cmd : action) (w : World) : World :=
  {| promises := promises w; dispatched := (dispatched w ++ [cmd])%list |}.

(** The same world with another cache. *)
Definition with_promises (cache : gmap string value) (w : World) : World :=
  {| promises := cache; dispatched := dispatched w |}.

(** [hasData(state)] and [hasError(state)] *)
Definition hasData (state : value) : result bool :=
  d ← get_prop state "data";
  Ok (match d with VNull => false | _ => true end).

Definition hasError (state : value) : result bool :=
  e ← get_prop state "error";
  Ok (truthy e).

End Quest.

(** ** The legacy withData component *)

Module WithData.

Section Legacy.

(** [String.prototype.toUpperCase] of the host. *)
Variable toUpperCase : string → string.
Variable resolver : value.
Variable key : string.

(** [string[0]] *)
Definition first_char (s : string) : value :=
  match s with
  | EmptyString => VUndefined
  | String c _ => VStr (String c EmptyString)
  end.

(** [string.slice(1)] *)
Definition slice1 (s : string) : string :=
  match s with
  | EmptyString => EmptyString
  | String _ rest => rest
  end.

(** [capitalize(string)]: [string[0].toUpperCase() + string.slice(1)] *)
Definition capitalize (s : string) : result string :=
  match first_char s with
  | VStr c => Ok (toUpperCase c ++ slice1 s)
  | _ => Throw (TypeError "Cannot read property 'toUpperCase' of undefined")
  end.

(** One step of the [reduce] over [Object.keys(resolver)]. *)
Definition add_method (props : value) (acc : result value) (method : string)
  : result value :=
  result ← acc;
  cap ← capitalize key;
  Ok (VObj (set_field (method ++ cap) (VLegacyMethod method props)
                      (own_fields result))).

(** The mapper of the first [withProps]. *)
Definition methodProps (props : value) : result value :=
  fold_left (add_method props) (object_keys resolver) (Ok (VObj [])).

(** The mapper of the second [withProps]. *)
Definition getProp (props : value) : result value :=
  cap ← capitalize key;
  Ok (VObj [("get" ++ cap, VLegacyGet props)]).

(** Both [withProps] stages, in the order [compose] runs them. *)
Definition programaticProps (props : value) : result value :=
  props' ← withProps methodProps props;
  withProps getProp props'.

End Legacy.

(** Upper-casing on the ASCII letters, for running the model. *)
Definition ascii_upper (c : ascii) : ascii :=
  let n := nat_of_ascii c in
  if (97 <=? n)%nat && (n <=? 122)%nat then ascii_of_nat (n - 32) else c.

Fixpoint upper (s : string) : string :=
  match s with
  | EmptyString => EmptyString
  | String c rest => String (ascii_upper c) (upper rest)
  end.

End WithData.

(** ** The data-mapping stages of quest.js *)

Module Stages.
Import Quest.

(** What a stage hands on: the props for the component below it; nothing
    at all ([renderNothing]); or the props for the component the caller's
    [branch] makes of the stages below.  What that component renders, and
    whether it renders the stages below at all, is the caller's business:
    the model keeps those stages, as [below], and does not run them. *)
Inductive view : Type :=
| Render (props : value)
| Nothing
| Branch (props : value) (below : value → result view).

(** A stage placed under what has been rendered so far: under [Render] it
    sees the props, under [Branch] it joins the stages the branch component
    wraps. *)
Fixpoint under (r : view) (next : value → result view) : result view :=
  match r with
  | Render props => next props
  | Nothing => Ok Nothing
  | Branch props below =>
      Ok (Branch props
            (λ p, match below p with
                  | Ok r' => under r' next
                  | Throw e => Throw e
                  end))
  end.

(** A stage that renders or throws: it does not hold the props back. *)
Definition renders (v : result view) : Prop :=
  match v with
  | Ok (Render _) | Throw _ => True
  | Ok _ => False
  end.

(** Stages in the order [compose] runs them: the next one sees the props
    the previous one rendered with. *)
Definition and_then (v : result view) (next : value → result view)
  : result view :=
  r ← v;
  under r next.

Section WithEnv.

Variable env : Env.
Variable o : Options.
Variable key : string.
(** The second parameter of [quest]. *)
Variable branch : value.

(** [option && hasData(props[key])] *)
Definition option_and_data (option props : value) : result bool :=
  if truthy option
  then rec ← get_prop props key; hasData rec
  else Ok false.

(** [when(props => mapData && hasData(props[key]), mapProps(...))] *)
Definition mapDataStage (props : value) : result view :=
  go ← option_and_data (mapData o) props;
  if go : bool then
    rec ← get_prop props key;
    d ← get_prop rec "data";
    mapped ← invoke env (mapData o) [d];
    Ok (Render (VObj (set_field key
                        (VObj (set_field "data" mapped (spread_of rec)))
                        (own_fields props))))
  else Ok (Render props).

(** [when(props => mapToProps && hasData(props[key]), mapProps(...))] *)
Definition mapToPropsStage (props : value) : result view :=
  go ← option_and_data (mapToProps o) props;
  if go : bool then
    rec ← get_prop props key;
    d ← get_prop rec "data";
    extra ← invoke env (mapToProps o) [d; props];
    Ok (Render (VObj (spread (own_fields props) (spread_of extra))))
  else Ok (Render props).

(** [when(props => mapDirect && hasData(props[key]), mapProps(...))] *)
Definition mapDirectStage (props : value) : result view :=
  go ← option_and_data (mapDirect o) props;
  if go : bool then
    rec ← get_prop props key;
    d ← get_prop rec "data";
    Ok (Render (VObj (set_field key d (own_fields props))))
  else Ok (Render props).

(** [when(props => waitForData && (!hasData(props[key]) ||
    hasError(props[key])), branch ? branch : renderNothing)].  When the
    test passes, recompose applies the left side to the component below:
    [renderNothing] renders nothing, a [branch] that is not a function
    cannot be applied. *)
Definition waitForDataStage (props : value) : result view :=
  go ← (if truthy (waitForData o)
        then rec ← get_prop props key;
             has ← hasData rec;
             if has : bool
             then rec' ← get_prop props key; hasError rec'
             else Ok true
        else Ok false);
  if go : bool
  then if truthy branch
       then if String.eqb (typeof branch) "function"
            then Ok (Branch props (λ p, Ok (Render p)))
            else Throw (TypeError "left is not a function")
       else Ok Nothing
  else Ok (Render props).

(** [when(props => !hasData(props[key]) && defaultData, mapProps(...))] *)
Definition defaultDataStage (props : value) : result view :=
  go ← (rec ← get_prop props key;
        has ← hasData rec;
        Ok (if has : bool then false else truthy (defaultData o)));
  if go : bool then
    rec ← get_prop props key;
    d ← (if String.eqb (typeof (defaultData o)) "function"
         then invoke env (defaultData o) [props]
         else Ok (defaultData o));
    Ok (Render (VObj (set_field key
                        (VObj (set_field "data" d (spread_of rec)))
                        (own_fields props))))
  else Ok (Render props).

(** The five stages between the programatic methods and [omitProps]. *)
Definition dataStages (props : value) : result view :=
  and_then (and_then (and_then (and_then
    (mapDataStage props) mapToPropsStage) mapDirectStage)
    waitForDataStage) defaultDataStage.

End WithEnv.

(** [quest.sync = opts => quest({ ...opts, mapDirect: true, waitForData:
    true })] *)
Definition quest_sync (opts : value) : result (Options * string) :=
  quest (VObj (set_field "waitForData" (VBool true)
                 (set_field "mapDirect" (VBool true) (spread_of opts)))).

(** The options with the two that [quest.sync] sets. *)
Definition synced (o : Options) : Options :=
  {| query := query o; resolver := resolver o; mapData := mapData o;
     mapToProps := mapToProps o; fetchOnServer := fetchOnServer o;
     fetchOnce := fetchOnce o; refetchWhen := refetchWhen o;
     defaultData := defaultData o;
     waitForData := VBool true; mapDirect := VBool true |}.

(** The options without a [defaultData]. *)
Definition without_default (o : Options) : Options :=
  {| query := query o; resolver := resolver o; mapData := mapData o;
     mapToProps := mapToProps o; fetchOnServer := fetchOnServer o;
     fetchOnce := fetchOnce o; refetchWhen := refetchWhen o;
     defaultData := VUndefined;
     waitForData := waitForData o; mapDirect := mapDirect o |}.

End Stages.

(** ** The lifecycle of the legacy withData component *)

Module LegacyLifecycle.

(** What [update] hands to the store: a function to call, or a value that
    [() => Promise.resolve({ result: next })] wraps. *)
Inductive fetcher : Type :=
| Fetch (f : value)
| Wrapped (next : value).

(** [updateData] is imported from ../ducks/_data_/actions, which is not
    among the sources.  A command is kept as data. *)
Inductive command : Type :=
| UpdateData (key : string) (f : fetcher).

(** The options of [withData] once the parameter pattern has applied its
    defaults. *)
Record Options : Type := {
  resolver : value;
  selector : value;
  mapToProps : value;
  async : value;
  immutable : value;
  reloadWhen : value;
}.

Section Legacy.

Variable env : Quest.Env.
Variable o : Options.
Variable key : string.

(** [update(next)] of [connect]; [props] are the props
    [mapDispatchToProps] was given.  It returns the commands dispatched. *)
Definition update (props next : value) : result (list command) :=
  match next with
  | VUndefined =>
      get ← get_prop (resolver o) "get";
      f ← Quest.bind_null get [props];
      Ok [UpdateData key (Fetch f)]
  | _ =>
      if String.eqb (typeof next) "function"
      then Ok [UpdateData key (Fetch next)]
      else Ok [UpdateData key (Wrapped next)]
  end.

(** [componentWillMount()]; [this.props] and the props [update] closes
    over. *)
Definition componentWillMount (thisProps props : value)
  : result (list command) :=
  get ← get_prop (resolver o) "get";
  Quest.bind_null get [thisProps];;
  go ← (if truthy (async o) then Ok false
        else rec ← get_prop thisProps key;
             completed ← get_prop rec "completed";
             if truthy completed then Ok false
             else rec' ← get_prop thisProps key;
                  inProgress ← get_prop rec' "inProgress";
                  Ok (negb (truthy inProgress)));
  if go : bool then update props VUndefined else Ok [].

(** [componentDidMount()] *)
Definition componentDidMount (thisProps props : value)
  : result (list command) :=
  go ← (if truthy (async o) then Ok true
        else rec ← get_prop thisProps key;
             err ← get_prop rec "error";
             Ok (truthy err));
  if go : bool then update props VUndefined else Ok [].

(** [componentWillReceiveProps(nextProps)] *)
Definition componentWillReceiveProps (thisProps props nextProps : value)
  : result (list command) :=
  reload ← Quest.invoke env (reloadWhen o) [thisProps; nextProps];
  if truthy reload then update props VUndefined else Ok [].

End Legacy.

End LegacyLifecycle.

(** ** Concrete inputs *)

Module Scenario.
Import Quest.

(** An application whose functions all return [undefined], a store whose
    [dispatch] hands back a fresh promise for every command, and a global
    object without the names quest.js mentions. *)
Definition env : Env :=
  {| call := λ _ _, Ok VUndefined;
     dispatch_returns := λ log _, VPromise (PExt (length log));
     globals := [] |}.

Definition postsResolver : value :=
  VObj [("key", VStr "posts"); ("get", VFun 0); ("create", VFun 1)].

(** [quest({ resolver: postsResolver })] *)
Definition opts : Options :=
  {| query := VNull; resolver := postsResolver;
     mapData := VUndefined; mapToProps := VUndefined;
     fetchOnServer := VBool true; fetchOnce := VUndefined;
     refetchWhen := VNever; defaultData := VUndefined;
     waitForData := VBool false; mapDirect := VBool false |}.

(** [quest({ resolver: postsResolver, fetchOnServer: false, fetchOnce:
    props => props.ready })]; of [env], the predicate answers [undefined]. *)
Definition deferred : Options :=
  {| query := VNull; resolver := postsResolver;
     mapData := VUndefined; mapToProps := VUndefined;
     fetchOnServer := VBool false; fetchOnce := VFun 2;
     refetchWhen := VNever; defaultData := VUndefined;
     waitForData := VBool false; mapDirect := VBool false |}.

Definition emptyStore : value := VObj [("_data_", VObj [])].

Definition loadingRecord : ResourceRecord :=
  {| loading := VBool true; completed := VBool false;
     error := VNull; data := VNull |}.

Definition failedRecord : ResourceRecord :=
  {| loading := VBool false; completed := VBool false;
     error := VStr "network down"; data := VNull |}.

(** A component about to mount while the record for "posts" is [r]. *)
Definition instance (r : ResourceRecord) : Instance :=
  {| fetched := false;
     props := VObj [("posts", record_obj r)];
     ownProps := VObj [] |}.

Definition start : World := {| promises := ∅; dispatched := [] |}.

(** The world after a first component has mounted on the empty store. *)
Definition inFlight : World :=
  (componentWillMount env opts "posts" (instance defaultRecord) start).2.

(** An application whose [query] function (number 5) answers with the
    props it is given. *)
Definition queryEnv : Env :=
  {| call := λ f args,
       if Nat.eqb f 5 then Ok (default VUndefined (head args))
       else Ok VUndefined;
     dispatch_returns := λ log _, VPromise (PExt (length log));
     globals := [] |}.

(** A store whose [dispatch] hands back a plain object. *)
Definition plainEnv : Env :=
  {| call := λ _ _, Ok VUndefined;
     dispatch_returns := λ _ _, VObj [("type", VStr "START")];
     globals := [] |}.

(** [quest({ resolver: postsResolver, fetchOnce: props => props.ready,
    refetchWhen: null })] *)
Definition nullRefetch : Options :=
  {| query := VNull; resolver := postsResolver;
     mapData := VUndefined; mapToProps := VUndefined;
     fetchOnServer := VBool true; fetchOnce := VFun 2;
     refetchWhen := VNull; defaultData := VUndefined;
     waitForData := VBool false; mapDirect := VBool false |}.

(** [quest({ resolver: postsResolver, waitForData: true, defaultData:
    "none" })] *)
Definition waiting : Options :=
  {| query := VNull; resolver := postsResolver;
     mapData := VUndefined; mapToProps := VUndefined;
     fetchOnServer := VBool true; fetchOnce := VUndefined;
     refetchWhen := VNever; defaultData := VStr "none";
     waitForData := VBool true; mapDirect := VBool false |}.

(** A record the reducer has marked [ready]. *)
Definition readyRecord : value :=
  VObj [("loading", VBool false); ("ready", VBool true);
        ("error", VNull); ("data", VStr "a")].

(** A record with data from an earlier fetch and the error of a later one;
    the data has an [error] member of its own. *)
Definition staleRecord : ResourceRecord :=
  {| loading := VBool false; completed := VBool true;
     error := VStr "network down";
     data := VObj [("items", VNum 2); ("error", VNull)] |}.

(** A record the reducer has marked [ready] and that carries an error. *)
Definition readyFailedRecord : value :=
  VObj [("loading", VBool false); ("ready", VBool true);
        ("error", VStr "network down"); ("data", VStr "a")].

(** [quest({ resolver: postsResolver, query: props => props,
    refetchWhen: props => props })] under [queryEnv]. *)
Definition requeried : Options :=
  {| query := VFun 5; resolver := postsResolver;
     mapData := VUndefined; mapToProps := VUndefined;
     fetchOnServer := VBool true; fetchOnce := VUndefined;
     refetchWhen := VFun 5; defaultData := VUndefined;
     waitForData := VBool false; mapDirect := VBool false |}.

(** A component that has fetched. *)
Definition fetchedInstance : Instance :=
  {| fetched := true;
     props := VObj [("posts", record_obj defaultRecord)];
     ownProps := VObj [] |}.

(** [quest({ resolver: postsResolver, fetchOnce: true })] *)
Definition once : Options :=
  {| query := VNull; resolver := postsResolver;
     mapData := VUndefined; mapToProps := VUndefined;
     fetchOnServer := VBool true; fetchOnce := VBool true;
     refetchWhen := VNever; defaultData := VUndefined;
     waitForData := VBool false; mapDirect := VBool false |}.

(** An application whose [mapData] (number 6) answers "mapped" and whose
    [mapToProps] (number 7) answers with the data it is given under
    [seen]. *)
Definition mapEnv : Env :=
  {| call := λ f args,
       if Nat.eqb f 6 then Ok (VStr "mapped")
       else if Nat.eqb f 7
       then Ok (VObj [("seen", default VUndefined (head args))])
       else Ok VUndefined;
     dispatch_returns := λ log _, VPromise (PExt (length log));
     globals := [] |}.

(** [quest({ resolver: postsResolver, mapData, mapToProps })] *)
Definition mapped : Options :=
  {| query := VNull; resolver := postsResolver;
     mapData := VFun 6; mapToProps := VFun 7;
     fetchOnServer := VBool true; fetchOnce := VUndefined;
     refetchWhen := VNever; defaultData := VUndefined;
     waitForData := VBool false; mapDirect := VBool false |}.

(** The fields of a record that holds "raw". *)
Definition rawFields : list (string * value) :=
  [("loading", VBool false); ("completed", VBool true);
   ("error", VNull); ("data", VStr "raw")].

(** [withData({ resolver: postsResolver, async: true })] on a completed
    record. *)
Definition legacyOpts : LegacyLifecycle.Options :=
  {| LegacyLifecycle.resolver := postsResolver;
     LegacyLifecycle.selector := VUndefined;
     LegacyLifecycle.mapToProps := VUndefined;
     LegacyLifecycle.async := VBool true;
     LegacyLifecycle.immutable := VBool false;
     LegacyLifecycle.reloadWhen := VNever |}.

Definition legacyRecord : value :=
  VObj [("completed", VBool true); ("inProgress", VBool false);
        ("error", VNull); ("result", VStr "a")].

End Scenario.

(** * Properties *)

Section Configuration.
Import Quest.

Lemma quest_setup_ok (o : Options) :
  is_ok (quest_setup o) = conforming (resolver o).
Proof.
  unfold quest_setup, conforming.
  destruct (resolver o) as [| | | | |fields| | | | | | | | |]; try reflexivity.
  simpl.
  destruct (assoc "key" fields) as [k|]; simpl; [|reflexivity].
  destruct k; simpl; try reflexivity.
  destruct (assoc "get" fields) as [g|]; simpl; [|reflexivity].
  destruct g; reflexivity.
Qed.

(** C4. [quest(options)] returns normally exactly when the resolver it is
    given is an object with a string [key] and a [get] function; in every
    other case it throws while the component is being configured, before
    any lifecycle method exists to start a quest. *)
Theorem quest_fails_fast (fields : list (string * value)) :
  is_ok (quest (VObj fields))
  = conforming (default VUndefined (assoc "resolver" fields)).
Proof.
  unfold quest, destructure, get_prop. cbn [mbind result_bind].
  match goal with
  | |- context [quest_setup ?o] =>
      pose proof (quest_setup_ok o) as H; destruct (quest_setup o)
  end; exact H.
Qed.

End Configuration.

Section StoreConnections.
Import Quest.

Variable env : Env.
Variable key : string.

(** The first connection answers an absent or falsy entry with the default
    record. *)
Lemma mapState_default (state store entry : value) :
  get_prop state "_data_" = Ok store →
  get_prop store key = Ok entry →
  truthy entry = false →
  mapState env key state = Ok (VObj [(key, defaultState)]).
Proof.
  intros Hs He Ht. unfold mapState.
  rewrite Hs. cbn [mbind result_bind]. rewrite He. cbn [mbind result_bind].
  rewrite Ht. reflexivity.
Qed.

(** Both connections pass an initialised (truthy) entry through. *)
Lemma mapState_entry (state store entry : value) :
  get_prop state "_data_" = Ok store →
  get_prop store key = Ok entry →
  truthy entry = true →
  mapState env key state = Ok (VObj [(key, entry)])
  ∧ mapStateAgain env key state = Ok (VObj [(key, entry)]).
Proof.
  intros Hs He Ht. unfold mapState, mapStateAgain.
  rewrite Hs. cbn [mbind result_bind]. rewrite He. cbn [mbind result_bind].
  rewrite Ht. split; reflexivity.
Qed.

(** C3. Where the first connection substitutes [defaultState], the second
    one names [initialState], which quest.js neither imports nor declares:
    for an entry that is absent (or falsy) the second read throws a
    ReferenceError unless the host happens to define a global of that
    name. *)
Theorem mapStateAgain_throws (state store entry : value) :
  get_prop state "_data_" = Ok store →
  get_prop store key = Ok entry →
  truthy entry = false →
  assoc "initialState" (globals env) = None →
  mapState env key state = Ok (VObj [(key, defaultState)])
  ∧ mapStateAgain env key state = Throw (ReferenceError "initialState").
Proof.
  intros Hs He Ht Hg. split; [by eapply mapState_default|].
  unfold mapStateAgain.
  rewrite Hs. cbn [mbind result_bind]. rewrite He. cbn [mbind result_bind].
  rewrite Ht. unfold resolve_ident.
  replace (bool_decide ("initialState" ∈ module_scope)) with false
    by (vm_compute; reflexivity).
  rewrite Hg. reflexivity.
Qed.

End StoreConnections.

Lemma mapStateAgain_throws_witness :
  Quest.mapState Scenario.env "posts" Scenario.emptyStore
    = Ok (VObj [("posts", defaultState)])
  ∧ Quest.mapStateAgain Scenario.env "posts" Scenario.emptyStore
    = Throw (ReferenceError "initialState").
Proof.
  apply (mapStateAgain_throws Scenario.env "posts" Scenario.emptyStore
           (VObj []) VUndefined); reflexivity.
Defined.

Section ProgramaticMethods.
Import Quest.

Lemma filter_keys_empty (keys : list string) :
  List.filter (λ k, String.eqb (typeof (VStr k)) "function") keys = [].
Proof. induction keys as [|k keys IH]; [reflexivity|exact IH]. Qed.

(** C5. The filter in front of the [reduce] tests [typeof key], and a key
    is a string: no name survives it, so for every resolver the mapper
    returns the empty object and the key prop reaches the wrapped component
    as it arrived, without any method of the resolver. *)
Theorem programaticMethods_empty (o : Options) (key : string) (props : value) :
  method_names o = []
  ∧ programaticMethods o key props = Ok (VObj [])
  ∧ withProps (programaticMethods o key) (VObj (own_fields props))
    = Ok (VObj (own_fields props)).
Proof.
  assert (Hn : method_names o = []) by apply filter_keys_empty.
  assert (Hp : ∀ p, programaticMethods o key p = Ok (VObj [])).
  { intros p. unfold programaticMethods. rewrite Hn. reflexivity. }
  repeat split; [exact Hn|apply Hp|].
  unfold withProps. rewrite Hp. reflexivity.
Qed.

(** The resolver of the README, with [get] and [create]: the "posts" prop
    carries neither. *)
Example programaticMethods_posts :
  let props := VObj [("posts", defaultState)] in
  withProps (programaticMethods Scenario.opts "posts") props = Ok props
  ∧ (rec ← get_prop props "posts"; get_prop rec "create") = Ok VUndefined.
Proof. split; reflexivity. Qed.

End ProgramaticMethods.

Section LegacyProps.
Import WithData.

Variable toUpperCase : string → string.

Lemma elem_of_set_field (name : string) (v : value)
  (fields : list (string * value)) (n : string) :
  n ∈ (set_field name v fields).*1 ↔ n = name ∨ n ∈ fields.*1.
Proof.
  induction fields as [|[k w] rest IH]; simpl.
  - rewrite elem_of_cons, elem_of_nil. tauto.
  - destruct (String.eqb_spec k name) as [->|Hne]; simpl.
    + rewrite !elem_of_cons. tauto.
    + rewrite !elem_of_cons, IH. tauto.
Qed.

Lemma capitalize_cons (c : ascii) (rest : string) :
  capitalize toUpperCase (String c rest)
  = Ok (toUpperCase (String c EmptyString) ++ rest).
Proof. reflexivity. Qed.

Lemma fold_add_method_throw (key : string) (props : value)
  (methods : list string) (e : exn) :
  fold_left (add_method toUpperCase key props) methods (Throw e) = Throw e.
Proof. induction methods as [|m ms IH]; [reflexivity|exact IH]. Qed.

Lemma fold_add_method_names (c : ascii) (rest : string) (props : value)
  (methods : list string) (acc : list (string * value)) :
  ∃ fields,
    fold_left (add_method toUpperCase (String c rest) props) methods
              (Ok (VObj acc)) = Ok (VObj fields)
    ∧ ∀ name, name ∈ fields.*1 ↔
        name ∈ acc.*1
        ∨ ∃ method, method ∈ methods
            ∧ name = method ++ toUpperCase (String c EmptyString) ++ rest.
Proof.
  revert acc. induction methods as [|m ms IH]; intros acc.
  - exists acc. split; [reflexivity|]. intros name. split; [tauto|].
    intros [H|(method & Hm & _)]; [exact H|]. by apply elem_of_nil in Hm.
  - cbn [fold_left]. unfold add_method at 2.
    cbn [mbind result_bind]. rewrite capitalize_cons. cbn [mbind result_bind own_fields].
    destruct (IH (set_field (m ++ toUpperCase (String c EmptyString) ++ rest)
                    (VLegacyMethod m props) acc)) as (fields & Hf & Hn).
    exists fields. split; [exact Hf|].
    intros name. rewrite Hn, elem_of_set_field. split.
    + intros [[->|H]|(method & Hm & ->)].
      * right. exists m. split; [left|reflexivity].
      * by left.
      * right. exists method. split; [by right|reflexivity].
    + intros [H|(method & Hm & ->)]; [by left; right|].
      apply elem_of_cons in Hm as [->|Hm]; [by left; left|].
      right. by exists method.
Qed.

(** C10. [capitalize] upper-cases the first character of a non-empty key
    and keeps the rest, so the props generated for a non-empty key are
    named by the method followed by the capitalised key; on the empty key
    [string[0]] is [undefined] and the construction of the props throws a
    TypeError, whatever the resolver. *)
Theorem capitalize_needs_nonempty_key (resolver props : value) :
  (∀ c rest,
     capitalize toUpperCase (String c rest)
     = Ok (toUpperCase (String c EmptyString) ++ rest))
  ∧ (∀ c rest, ∃ fields,
       methodProps toUpperCase resolver (String c rest) props = Ok (VObj fields)
       ∧ ∀ name, name ∈ fields.*1 ↔
           ∃ method, method ∈ object_keys resolver
             ∧ name = method ++ toUpperCase (String c EmptyString) ++ rest)
  ∧ (∀ c rest,
       getProp toUpperCase (String c rest) props
       = Ok (VObj [("get" ++ toUpperCase (String c EmptyString) ++ rest,
                    VLegacyGet props)]))
  ∧ (∃ msg, capitalize toUpperCase "" = Throw (TypeError msg))
  ∧ (∃ msg, programaticProps toUpperCase resolver "" props
            = Throw (TypeError msg)).
Proof.
  split; [intros; apply capitalize_cons|].
  split.
  { intros c rest. unfold methodProps.
    destruct (fold_add_method_names c rest props (object_keys resolver) [])
      as (fields & Hf & Hn).
    exists fields. split; [exact Hf|]. intros name. rewrite Hn.
    split; [intros [H|H]; [by apply elem_of_nil in H|exact H]|by right]. }
  split; [reflexivity|].
  split; [eexists; reflexivity|].
  unfold programaticProps, withProps, methodProps.
  destruct (object_keys resolver) as [|m ms].
  - eexists. reflexivity.
  - cbn [fold_left]. unfold add_method at 2. cbn [mbind result_bind capitalize first_char].
    rewrite fold_add_method_throw. eexists. reflexivity.
Qed.

(** The key of the README under ASCII upper-casing. *)
Example capitalize_posts : capitalize upper "posts" = Ok "Posts".
Proof. reflexivity. Qed.

End LegacyProps.

Section Lifecycle.
Import Quest.

Variable env : Env.
Variable o : Options.
Variable key : string.

#[local] Abbreviation updateData := (updateData env o key).
#[local] Abbreviation canFetchOnce := (canFetchOnce env o key).
#[local] Abbreviation componentWillMount := (componentWillMount env o key).
#[local] Abbreviation componentDidMount := (componentDidMount env o key).
#[local] Abbreviation componentWillReceiveProps := (componentWillReceiveProps env o key).

Ltac run := unfold mbind, M_bind, mret, M_ret, lift, dispatch; cbn beta iota.

Lemma is_function_not_undefined (v : value) :
  String.eqb (typeof v) "function" = true → v ≠ VUndefined ∧ v ≠ VNull.
Proof. destruct v; simpl; intros H; try discriminate; split; discriminate. Qed.

Lemma updateData_runs (props next nextProps q get : value) (w : World) :
  options_query env o props nextProps = Ok q →
  get_prop (resolver o) "get" = Ok get →
  String.eqb (typeof get) "function" = true →
  let cmd :=
    match next with
    | VUndefined => StartQuest key (VBound get [VObj [("query", q)]])
    | _ => if String.eqb (typeof next) "function"
           then StartQuest key next else ResolveQuest key next
    end in
  updateData props next nextProps w
  = (Ok (dispatch_returns env (dispatched w) cmd), sent cmd w).
Proof.
  intros Hq Hget Hfun. unfold Quest.updateData. run. rewrite Hq.
  assert (Hb : bind_null get [VObj [("query", q)]]
               = Ok (VBound get [VObj [("query", q)]])).
  { unfold bind_null. rewrite Hfun. destruct get; try discriminate; reflexivity. }
  destruct next; run; rewrite ?Hget, ?Hb; try reflexivity;
    cbn [typeof String.eqb]; run; try reflexivity;
    destruct (String.eqb _ _); reflexivity.
Qed.

(** C6. [updateData(next)] sends exactly one command to the store.  It is
    RESOLVE(key, next), with no fetcher involved, exactly when [next] is
    neither [undefined] nor a function; for [undefined] it is START with
    [resolver.get] bound to the options object that holds the computed
    query, and for a function it is START with that function. *)
Theorem updateData_command (props next nextProps q get : value) (w : World) :
  options_query env o props nextProps = Ok q →
  get_prop (resolver o) "get" = Ok get →
  String.eqb (typeof get) "function" = true →
  ∃ cmd,
    updateData props next nextProps w
    = (Ok (dispatch_returns env (dispatched w) cmd), sent cmd w)
    ∧ (next = VUndefined →
       cmd = StartQuest key (VBound get [VObj [("query", q)]]))
    ∧ (String.eqb (typeof next) "function" = true →
       cmd = StartQuest key next)
    ∧ (cmd = ResolveQuest key next ↔
       next ≠ VUndefined ∧ String.eqb (typeof next) "function" = false).
Proof.
  intros Hq Hget Hfun. eexists. split; [by apply updateData_runs|].
  split; [intros ->; reflexivity|]. split.
  - intros Hn. destruct (is_function_not_undefined _ Hn) as [Hu _].
    destruct next; try congruence; rewrite ?Hn; try reflexivity; discriminate.
  - split.
    + intros H. destruct next; cbn [typeof String.eqb] in *;
        try discriminate H; split; (discriminate || reflexivity).
    + intros [Hu Hn]. destruct next; try congruence; try discriminate Hn;
        reflexivity.
Qed.

Hypothesis Hsetup : quest_setup o = Ok key.
Hypothesis Hquery : ∀ props np, is_ok (options_query env o props np) = true.

Lemma setup_get :
  ∃ get, get_prop (resolver o) "get" = Ok get
         ∧ String.eqb (typeof get) "function" = true.
Proof.
  revert Hsetup. unfold quest_setup.
  destruct (resolver o) as [| | | | |fields| | | | | | | | |];
    simpl; try discriminate.
  destruct (assoc "key" fields) as [k|]; simpl; [|discriminate].
  destruct k; simpl; try discriminate.
  destruct (assoc "get" fields) as [g|]; simpl; [|intros H; discriminate H].
  intros H. exists g. split; [reflexivity|].
  destruct g; simpl in *; reflexivity || discriminate H.
Qed.

Lemma updateData_fetches (props np : value) (w : World) :
  ∃ fetcher,
    updateData props VUndefined np w
    = (Ok (dispatch_returns env (dispatched w) (StartQuest key fetcher)),
       sent (StartQuest key fetcher) w).
Proof.
  destruct setup_get as (get & Hget & Hfun).
  pose proof (Hquery props np) as Hq.
  destruct (options_query env o props np) as [q|] eqn:Eq; [|discriminate].
  eexists. exact (updateData_runs props VUndefined np q get w Eq Hget Hfun).
Qed.

Lemma didMount_fetch (i : Instance) (w : World) (c : value) :
  truthy (fetchOnServer o) = false →
  canFetchOnce i VUndefined = Ok c →
  truthy c = true →
  fetches key (componentDidMount i) w.
Proof.
  intros Hs Hc Ht. unfold fetches, Quest.componentDidMount. run.
  rewrite Hs. cbn [negb]. rewrite Hc. cbn [mbind result_bind]. rewrite Ht.
  destruct (updateData_fetches (ownProps (set_fetched true i)) VUndefined w)
    as (f & Hf).
  rewrite Hf. exists f. reflexivity.
Qed.

Lemma track_log (r : value) (w : World) :
  dispatched (track env key r w).2 = dispatched w.
Proof.
  unfold track. run.
  destruct (truthy r); [|reflexivity].
  destruct (get_prop r "then") as [t|]; cbn [mbind result_bind]; [|reflexivity].
  destruct (truthy t); [|reflexivity].
  destruct (then_cleanup env key r); reflexivity.
Qed.

Lemma track_promise (q : promise) (w : World) :
  track env key (VPromise q) w
  = (Ok tt, with_promises (<[key := VPromise (PThenCleanup q key)]> (promises w)) w).
Proof. reflexivity. Qed.

Lemma canFetchOnce_fresh (i : Instance) (np : value) :
  fetched i = false → canFetchOnce (set_fetched false i) np = canFetchOnce i np.
Proof. destruct i as [f p op]. simpl. intros ->. reflexivity. Qed.

(** A component that has not fetched, on a record that is not [ready], may
    fetch whenever [fetchOnce] is unset. *)
Lemma canFetchOnce_unset (i : Instance) (rec ready np : value) :
  fetched i = false →
  get_prop (props i) key = Ok rec →
  get_prop rec "ready" = Ok ready →
  truthy ready = false →
  truthy (fetchOnce o) = false →
  canFetchOnce i np = Ok (VBool true).
Proof.
  intros Hf Hp Hr Ht Ho. unfold Quest.canFetchOnce.
  rewrite Hf, Hp. cbn [mbind result_bind]. rewrite Hr.
  cbn [mbind result_bind]. rewrite Ht, Ho. reflexivity.
Qed.

(** The same when the record carries an error, whatever [fetchOnce] is. *)
Lemma canFetchOnce_failed (i : Instance) (rec ready err np : value) :
  fetched i = false →
  get_prop (props i) key = Ok rec →
  get_prop rec "ready" = Ok ready →
  truthy ready = false →
  get_prop rec "error" = Ok err →
  truthy err = true →
  canFetchOnce i np = Ok (VBool true).
Proof.
  intros Hf Hp Hr Ht He Hte. unfold Quest.canFetchOnce.
  rewrite Hf, Hp. cbn [mbind result_bind]. rewrite Hr.
  cbn [mbind result_bind]. rewrite Ht.
  destruct (truthy (fetchOnce o)); cbn [negb mbind result_bind]; [|reflexivity].
  rewrite He. cbn [mbind result_bind]. rewrite Hte. reflexivity.
Qed.

Lemma willMount_fetch (i : Instance) (w : World) (c : value) :
  truthy (fetchOnServer o) = true →
  canFetchOnce (set_fetched false i) VUndefined = Ok c →
  truthy c = true →
  ∃ fetcher,
    let cmd := StartQuest key fetcher in
    let r := dispatch_returns env (dispatched w) cmd in
    componentWillMount i w
    = ((track env key r ;; mret (set_fetched false i, r)) (sent cmd w)).
Proof.
  intros Hs Hc Ht.
  destruct (updateData_fetches (ownProps (set_fetched false i)) VUndefined w)
    as (f & Hf).
  exists f. unfold Quest.componentWillMount. run.
  rewrite Hs, Hc. cbn [mbind result_bind]. rewrite Ht, Hf. reflexivity.
Qed.

Lemma willMount_fetches (i : Instance) (w : World) (c : value) :
  truthy (fetchOnServer o) = true →
  canFetchOnce (set_fetched false i) VUndefined = Ok c →
  truthy c = true →
  fetches key (componentWillMount i) w.
Proof.
  intros Hs Hc Ht.
  destruct (willMount_fetch i w c Hs Hc Ht) as (f & Hf).
  exists f. rewrite Hf. run.
  match goal with
  | |- context [track env key ?r ?w'] =>
      pose proof (track_log r w') as Hl; destruct (track env key r w') as [[[]|e] w'']
  end; exact Hl.
Qed.

Lemma willMount_deferred (i : Instance) (w : World) :
  truthy (fetchOnServer o) = false → quiet (componentWillMount i) w.
Proof.
  intros Hs. unfold quiet, Quest.componentWillMount, peek. run. rewrite Hs.
  destruct (get_prop (props (set_fetched false i)) key) as [rec|]; [|reflexivity].
  destruct (get_prop rec "loading") as [l|]; [|reflexivity].
  destruct (truthy l); reflexivity.
Qed.

Lemma didMount_quiet (i : Instance) (w : World) :
  (truthy (fetchOnServer o) = true
   ∨ (∃ e, canFetchOnce i VUndefined = Throw e)
   ∨ (∃ c, canFetchOnce i VUndefined = Ok c ∧ truthy c = false)) →
  quiet (componentDidMount i) w.
Proof.
  unfold quiet, Quest.componentDidMount. run.
  intros [Hs|[[e He]|(c & Hc & Ht)]].
  - rewrite Hs. reflexivity.
  - destruct (truthy (fetchOnServer o)); [reflexivity|]. cbn [negb].
    rewrite He. reflexivity.
  - destruct (truthy (fetchOnServer o)); [reflexivity|]. cbn [negb].
    rewrite Hc. cbn [mbind result_bind]. rewrite Ht. reflexivity.
Qed.

Lemma receiveProps_fetch (i : Instance) (np : value) (w : World) :
  ((∃ c, canFetchOnce i np = Ok c ∧ truthy c = true)
   ∨ (∃ c again, canFetchOnce i np = Ok c ∧ truthy c = false
        ∧ invoke env (refetchWhen o) [props i; np] = Ok again
        ∧ truthy again = true)) →
  fetches key (componentWillReceiveProps i np) w.
Proof.
  intros H.
  destruct (updateData_fetches (ownProps (set_fetched true i)) np w) as (f & Hf).
  exists f. unfold Quest.componentWillReceiveProps. run.
  destruct H as [(c & Hc & Ht)|(c & again & Hc & Ht & Hr & Ha)];
    rewrite Hc; cbn [mbind result_bind]; rewrite Ht.
  - rewrite Hf. reflexivity.
  - rewrite Hr. cbn [mbind result_bind]. rewrite Ha, Hf. reflexivity.
Qed.

Lemma receiveProps_quiet (i : Instance) (np : value) (w : World) :
  ((∃ e, canFetchOnce i np = Throw e)
   ∨ (∃ c e, canFetchOnce i np = Ok c ∧ truthy c = false
        ∧ invoke env (refetchWhen o) [props i; np] = Throw e)
   ∨ (∃ c again, canFetchOnce i np = Ok c ∧ truthy c = false
        ∧ invoke env (refetchWhen o) [props i; np] = Ok again
        ∧ truthy again = false)) →
  quiet (componentWillReceiveProps i np) w.
Proof.
  unfold quiet, Quest.componentWillReceiveProps. run.
  intros [[e He]|[(c & e & Hc & Ht & Hr)|(c & again & Hc & Ht & Hr & Ha)]].
  - rewrite He. reflexivity.
  - rewrite Hc. cbn [mbind result_bind]. rewrite Ht, Hr. reflexivity.
  - rewrite Hc. cbn [mbind result_bind]. rewrite Ht, Hr.
    cbn [mbind result_bind]. rewrite Ha. reflexivity.
Qed.

(** C8. With [fetchOnServer] off, the step before mounting dispatches
    nothing; [componentDidMount] dispatches the first fetch exactly when
    [canFetchOnce()] answers truthy; and on a change of props a fetch is
    dispatched exactly when [canFetchOnce(nextProps)] answers truthy or,
    failing that, [refetchWhen(props, nextProps)] does. *)
Theorem deferred_fetch (i : Instance) (np : value) (w : World) :
  truthy (fetchOnServer o) = false →
  quiet (componentWillMount i) w
  ∧ (if yes (canFetchOnce i VUndefined)
     then fetches key (componentDidMount i) w
     else quiet (componentDidMount i) w)
  ∧ match canFetchOnce i np with
    | Ok c =>
        if truthy c || yes (invoke env (refetchWhen o) [props i; np])
        then fetches key (componentWillReceiveProps i np) w
        else quiet (componentWillReceiveProps i np) w
    | Throw _ => quiet (componentWillReceiveProps i np) w
    end.
Proof.
  intros Hs. split; [by apply willMount_deferred|]. split.
  - destruct (canFetchOnce i VUndefined) as [c|e] eqn:Hc; cbn [yes].
    + destruct (truthy c) eqn:Ht.
      * by eapply didMount_fetch.
      * apply didMount_quiet. right; right. by exists c.
    + apply didMount_quiet. right; left. by exists e.
  - destruct (canFetchOnce i np) as [c|e] eqn:Hc.
    + destruct (truthy c) eqn:Ht; cbn [orb].
      * apply receiveProps_fetch. left. by exists c.
      * destruct (invoke env (refetchWhen o) [props i; np]) as [again|e] eqn:Hr;
          cbn [yes].
        -- destruct (truthy again) eqn:Ha.
           ++ apply receiveProps_fetch. right. by exists c, again.
           ++ apply receiveProps_quiet. right; right. by exists c, again.
        -- apply receiveProps_quiet. right; left. by exists c, e.
    + apply receiveProps_quiet. left. by exists e.
Qed.

(** C9 (as the code has it). On a record that is not marked [ready] and
    whose [error] is truthy, a component that has not fetched is allowed
    to fetch whatever [fetchOnce] holds: the error is tested before
    [fetchOnce] is consulted (and after [ready]).  So the fetch is
    dispatched on a change of props and on mount (before mounting when
    [fetchOnServer] is on, after mounting otherwise). *)
Theorem error_bypasses_fetchOnce
  (i : Instance) (rec ready err np : value) (w : World) :
  fetched i = false →
  get_prop (props i) key = Ok rec →
  get_prop rec "ready" = Ok ready →
  truthy ready = false →
  get_prop rec "error" = Ok err →
  truthy err = true →
  canFetchOnce i np = Ok (VBool true)
  ∧ fetches key (componentWillReceiveProps i np) w
  ∧ (if truthy (fetchOnServer o)
     then fetches key (componentWillMount i) w
     else fetches key (componentDidMount i) w).
Proof.
  intros Hf Hp Hr Ht He Hte.
  assert (Hc : ∀ np', canFetchOnce i np' = Ok (VBool true))
    by (intros; by apply (canFetchOnce_failed i rec ready err)).
  split; [apply Hc|]. split.
  - apply receiveProps_fetch. left. exists (VBool true). by rewrite Hc.
  - destruct (truthy (fetchOnServer o)) eqn:Hs.
    + apply (willMount_fetches i w (VBool true) Hs); [|reflexivity].
      by rewrite canFetchOnce_fresh.
    + by apply (didMount_fetch i w (VBool true)).
Qed.

(** C1. Mounting does not look at the registration: with the default
    options, a component that mounts while the record is loading (and not
    [ready]) and a promise for the key is registered dispatches START all
    the same. *)
Theorem mount_ignores_in_flight
  (i : Instance) (rec ready l p : value) (w : World) :
  truthy (fetchOnServer o) = true →
  truthy (fetchOnce o) = false →
  get_prop (props i) key = Ok rec →
  get_prop rec "ready" = Ok ready →
  truthy ready = false →
  get_prop rec "loading" = Ok l →
  truthy l = true →
  promises w !! key = Some p →
  fetches key (componentWillMount i) w.
Proof.
  intros Hs Ho Hp Hr Ht _ _ _.
  apply (willMount_fetches i w (VBool true) Hs); [|reflexivity].
  by apply (canFetchOnce_unset _ rec ready).
Qed.

(** C7. With the default options, a component that mounts while the
    record is loading (and not [ready]) and a promise for the key is
    registered does not get that promise back: the mount step dispatches
    START again, and when the store answers with a promise it returns that
    new promise and registers a cleanup on it in place of the old entry. *)
Theorem mount_while_loading_starts_again
  (i : Instance) (rec ready l p : value) (w : World) :
  truthy (fetchOnServer o) = true →
  truthy (fetchOnce o) = false →
  get_prop (props i) key = Ok rec →
  get_prop rec "ready" = Ok ready →
  truthy ready = false →
  get_prop rec "loading" = Ok l →
  truthy l = true →
  promises w !! key = Some p →
  ∃ fetcher,
    let cmd := StartQuest key fetcher in
    dispatched (componentWillMount i w).2 = (dispatched w ++ [cmd])%list
    ∧ ∀ q, dispatch_returns env (dispatched w) cmd = VPromise q →
        componentWillMount i w
        = (Ok (set_fetched false i, VPromise q),
           with_promises (<[key := VPromise (PThenCleanup q key)]> (promises w))
                         (sent cmd w)).
Proof.
  intros Hs Ho Hp Hr Ht _ _ _.
  assert (Hc : canFetchOnce (set_fetched false i) VUndefined = Ok (VBool true))
    by by apply (canFetchOnce_unset _ rec ready).
  destruct (willMount_fetch i w (VBool true) Hs Hc eq_refl) as (f & Hf).
  exists f. cbn zeta in *. split.
  - rewrite Hf. run.
    match goal with
    | |- context [track env key ?v ?w'] =>
        pose proof (track_log v w') as Hl;
        destruct (track env key v w') as [[[]|e] w'']
    end; exact Hl.
  - intros q Hr'. rewrite Hf, Hr'. reflexivity.
Qed.

(** The loading branch behind the gate: when [fetchOnServer] is off or
    [canFetchOnce()] answers falsy, a record that is loading and a
    registered promise for the key make the mount step return that promise
    and dispatch nothing. *)
Lemma mount_returns_registered
  (i : Instance) (rec l p : value) (w : World) :
  (truthy (fetchOnServer o) = false
   ∨ ∃ c, canFetchOnce (set_fetched false i) VUndefined = Ok c
          ∧ truthy c = false) →
  get_prop (props i) key = Ok rec →
  get_prop rec "loading" = Ok l →
  truthy l = true →
  promises w !! key = Some p →
  truthy p = true →
  componentWillMount i w = (Ok (set_fetched false i, p), w).
Proof.
  intros Hgate Hp Hl Ht Hreg Htp. unfold Quest.componentWillMount, peek. run.
  assert (Hgo : (if truthy (fetchOnServer o)
                 then c ← canFetchOnce (set_fetched false i) VUndefined;
                      Ok (truthy c)
                 else Ok false) = Ok false).
  { destruct Hgate as [->|(c & Hc & Hf)]; [reflexivity|].
    rewrite Hc. cbn [mbind result_bind]. rewrite Hf.
    destruct (truthy (fetchOnServer o)); reflexivity. }
  unfold mbind in Hgo. rewrite Hgo.
  cbn [props set_fetched]. rewrite Hp, Hl, Ht, Hreg.
  cbn [default id]. rewrite Htp. reflexivity.
Qed.

End Lifecycle.

Section Settlement.
Import Quest.

Lemma settle_rejected (p : promise) (reason : value) (w : World) :
  settle p (Rejected reason) w = (Rejected reason, w).
Proof.
  induction p as [id|p IH k]; [reflexivity|].
  cbn [settle]. rewrite IH. reflexivity.
Qed.

Lemma settle_fulfilled (p : promise) (v : value) (w : World) :
  ∃ v', (settle p (Fulfilled v) w).1 = Fulfilled v'.
Proof.
  induction p as [id|p IH k]; [by exists v|].
  destruct IH as [v' IH]. cbn [settle].
  destruct (settle p (Fulfilled v) w) as [[u|reason] w']; [|discriminate IH].
  by exists VUndefined.
Qed.

Ltac run := unfold mbind, M_bind, mret, M_ret, lift, dispatch; cbn beta iota.

(** Nothing before the dispatch reads the cache. *)
Lemma updateData_frame (env : Env) (o : Options) (key : string)
  (props next np : value) (cache : gmap string value) (w : World) :
  updateData env o key props next np (with_promises cache w)
  = ((updateData env o key props next np w).1,
     with_promises cache (updateData env o key props next np w).2).
Proof.
  unfold updateData. run.
  destruct (options_query env o props np) as [q|]; [|reflexivity].
  destruct next; try reflexivity;
    try (destruct (String.eqb _ _); reflexivity).
  destruct (get_prop (resolver o) "get") as [g|]; [|reflexivity].
  cbn [mbind result_bind].
  destruct (bind_null g [VObj [("query", q)]]); reflexivity.
Qed.

Lemma track_log_frame (env : Env) (key : string) (A : Type) (a : A)
  (r : value) (w1 w2 : World) :
  dispatched w1 = dispatched w2 →
  dispatched ((track env key r ;; mret a) w1).2
  = dispatched ((track env key r ;; mret a) w2).2.
Proof.
  intros Hw. run.
  pose proof (track_log env key r w1) as H1.
  pose proof (track_log env key r w2) as H2.
  destruct (track env key r w1) as [[[]|e1] w1'],
           (track env key r w2) as [[[]|e2] w2']; cbn [snd] in *; congruence.
Qed.

Lemma willMount_frame (env : Env) (o : Options) (key : string)
  (i : Instance) (cache : gmap string value) (w : World) :
  dispatched (componentWillMount env o key i (with_promises cache w)).2
  = dispatched (componentWillMount env o key i w).2.
Proof.
  unfold componentWillMount, peek. run.
  destruct (if truthy (fetchOnServer o) then _ else _) as [[|]|e]; try reflexivity.
  - rewrite updateData_frame.
    destruct (updateData env o key (ownProps (set_fetched false i))
                VUndefined VUndefined w) as [[r|e] w']; [|reflexivity].
    cbn [fst snd]. by apply (track_log_frame env key _ (set_fetched false i, r)).
  - destruct (get_prop (props (set_fetched false i)) key) as [rec|]; [|reflexivity].
    destruct (get_prop rec "loading") as [l|]; [|reflexivity].
    destruct (truthy l); reflexivity.
Qed.

Lemma didMount_frame (env : Env) (o : Options) (key : string)
  (i : Instance) (cache : gmap string value) (w : World) :
  dispatched (componentDidMount env o key i (with_promises cache w)).2
  = dispatched (componentDidMount env o key i w).2.
Proof.
  unfold componentDidMount. run.
  destruct (if negb (truthy (fetchOnServer o)) then _ else _) as [[|]|e];
    try reflexivity.
  rewrite updateData_frame.
  destruct (updateData env o key (ownProps (set_fetched true i))
              VUndefined VUndefined w) as [[r|e] w']; reflexivity.
Qed.

Lemma receiveProps_frame (env : Env) (o : Options) (key : string)
  (i : Instance) (np : value) (cache : gmap string value) (w : World) :
  dispatched (componentWillReceiveProps env o key i np (with_promises cache w)).2
  = dispatched (componentWillReceiveProps env o key i np w).2.
Proof.
  unfold componentWillReceiveProps. run.
  destruct (result_bind _ _ _ (canFetchOnce env o key i np)) as [[|]|e];
    try reflexivity.
  rewrite updateData_frame.
  destruct (updateData env o key (ownProps (set_fetched true i))
              VUndefined np w) as [[r|e] w']; reflexivity.
Qed.

(** The reaction quest.js registers, for either outcome of the promise it
    is registered on, and the cache as seen by the lifecycle: no step
    consults it to decide whether to dispatch. *)
Lemma cleanup_reaction :
  (∀ p key v w,
     promises (settle (PThenCleanup p key) (Fulfilled v) w).2 !! key = None)
  ∧ (∀ p key reason w,
       settle (PThenCleanup p key) (Rejected reason) w = (Rejected reason, w))
  ∧ (∀ env o key i np cache w,
       dispatched (componentWillMount env o key i (with_promises cache w)).2
       = dispatched (componentWillMount env o key i w).2
       ∧ dispatched (componentDidMount env o key i (with_promises cache w)).2
         = dispatched (componentDidMount env o key i w).2
       ∧ dispatched
           (componentWillReceiveProps env o key i np (with_promises cache w)).2
         = dispatched (componentWillReceiveProps env o key i np w).2).
Proof.
  split; [|split].
  - intros p key v w. cbn [settle].
    destruct (settle_fulfilled p v w) as [v' Hv].
    destruct (settle p (Fulfilled v) w) as [[u|reason] w']; [|discriminate Hv].
    cbn [snd cleanup promises]. apply lookup_delete_eq.
  - intros. apply settle_rejected.
  - intros. split; [apply willMount_frame|].
    split; [apply didMount_frame|apply receiveProps_frame].
Qed.


End Settlement.

(** ** The theorems at concrete inputs *)

Section Instances.
Import Quest Scenario.

Lemma opts_setup : quest_setup opts = Ok "posts".
Proof. reflexivity. Defined.

Lemma deferred_setup : quest_setup deferred = Ok "posts".
Proof. reflexivity. Defined.

Lemma opts_query (props np : value) :
  is_ok (options_query env opts props np) = true.
Proof. reflexivity. Defined.

Lemma deferred_query (props np : value) :
  is_ok (options_query env deferred props np) = true.
Proof. reflexivity. Defined.

Lemma updateData_command_witness :
  ∃ cmd,
    updateData env opts "posts" (VObj []) (VNum 7) VUndefined start
    = (Ok (dispatch_returns env (dispatched start) cmd), sent cmd start)
    ∧ (VNum 7 = VUndefined →
       cmd = StartQuest "posts" (VBound (VFun 0) [VObj [("query", VNull)]]))
    ∧ (String.eqb (typeof (VNum 7)) "function" = true →
       cmd = StartQuest "posts" (VNum 7))
    ∧ (cmd = ResolveQuest "posts" (VNum 7) ↔
       VNum 7 ≠ VUndefined ∧ String.eqb (typeof (VNum 7)) "function" = false).
Proof.
  apply (updateData_command env opts "posts" (VObj []) (VNum 7) VUndefined
           VNull (VFun 0) start); reflexivity.
Defined.

Lemma deferred_fetch_witness :
  let i := instance defaultRecord in
  let np := VObj [("posts", record_obj failedRecord)] in
  quiet (componentWillMount env deferred "posts" i) start
  ∧ (if yes (canFetchOnce env deferred "posts" i VUndefined)
     then fetches "posts" (componentDidMount env deferred "posts" i) start
     else quiet (componentDidMount env deferred "posts" i) start)
  ∧ match canFetchOnce env deferred "posts" i np with
    | Ok c =>
        if truthy c || yes (invoke env (refetchWhen deferred) [props i; np])
        then fetches "posts" (componentWillReceiveProps env deferred "posts" i np) start
        else quiet (componentWillReceiveProps env deferred "posts" i np) start
    | Throw _ => quiet (componentWillReceiveProps env deferred "posts" i np) start
    end.
Proof.
  apply (deferred_fetch env deferred "posts" deferred_setup deferred_query).
  reflexivity.
Defined.

Lemma error_bypasses_fetchOnce_witness :
  let i := instance failedRecord in
  let np := VObj [("posts", record_obj failedRecord)] in
  canFetchOnce env deferred "posts" i np = Ok (VBool true)
  ∧ fetches "posts" (componentWillReceiveProps env deferred "posts" i np) start
  ∧ (if truthy (fetchOnServer deferred)
     then fetches "posts" (componentWillMount env deferred "posts" i) start
     else fetches "posts" (componentDidMount env deferred "posts" i) start).
Proof.
  apply (error_bypasses_fetchOnce env deferred "posts" deferred_setup
           deferred_query (instance failedRecord) (record_obj failedRecord)
           VUndefined (VStr "network down")); reflexivity.
Defined.

(** A record that is marked [ready] and carries an error: a component
    that has not fetched is not let through, and neither mounting nor a
    change of props dispatches anything, with [fetchOnce] set or not. *)
Lemma ready_failed_record_is_not_refetched :
  let i := {| fetched := false; props := VObj [("posts", readyFailedRecord)];
              ownProps := VObj [] |} in
  let np := VObj [("posts", readyFailedRecord)] in
  get_prop readyFailedRecord "error" = Ok (VStr "network down")
  ∧ truthy (VStr "network down") = true
  ∧ canFetchOnce env deferred "posts" i np = Ok (VBool false)
  ∧ canFetchOnce env opts "posts" i np = Ok (VBool false)
  ∧ dispatched (componentWillMount env opts "posts" i start).2 = []
  ∧ dispatched (componentDidMount env deferred "posts" i start).2 = []
  ∧ dispatched (componentWillReceiveProps env opts "posts" i np start).2 = []
  ∧ dispatched (componentWillReceiveProps env deferred "posts" i np start).2
    = [].
Proof. repeat split; reflexivity. Qed.

Lemma mount_ignores_in_flight_witness :
  fetches "posts"
    (componentWillMount env opts "posts" (instance loadingRecord)) inFlight.
Proof.
  apply (mount_ignores_in_flight env opts "posts" opts_setup opts_query
           (instance loadingRecord) (record_obj loadingRecord) VUndefined
           (VBool true) (VPromise (PThenCleanup (PExt 0) "posts")) inFlight);
    reflexivity.
Defined.

Lemma mount_while_loading_starts_again_witness :
  ∃ fetcher,
    let cmd := StartQuest "posts" fetcher in
    let i := instance loadingRecord in
    dispatched (componentWillMount env opts "posts" i inFlight).2
    = (dispatched inFlight ++ [cmd])%list
    ∧ ∀ q, dispatch_returns env (dispatched inFlight) cmd = VPromise q →
        componentWillMount env opts "posts" i inFlight
        = (Ok (set_fetched false i, VPromise q),
           with_promises
             (<["posts" := VPromise (PThenCleanup q "posts")]> (promises inFlight))
             (sent cmd inFlight)).
Proof.
  apply (mount_while_loading_starts_again env opts "posts" opts_setup
           opts_query (instance loadingRecord) (record_obj loadingRecord)
           VUndefined (VBool true) (VPromise (PThenCleanup (PExt 0) "posts"))
           inFlight); reflexivity.
Defined.


(** Two components mounting one after the other on the same key with the
    default options, the second while the record is loading and the promise
    of the first is registered: START goes out again, the second mount
    returns the promise of the second START and not the registered one, and
    the registration of the first is replaced. *)
Lemma mount_twice :
  let i := instance loadingRecord in
  let registered := VPromise (PThenCleanup (PExt 0) "posts") in
  let second := componentWillMount env opts "posts" i inFlight in
  let fetcher := VBound (VFun 0) [VObj [("query", VNull)]] in
  get_prop (record_obj loadingRecord) "loading" = Ok (VBool true)
  ∧ promises inFlight !! "posts" = Some registered
  ∧ dispatched inFlight = [StartQuest "posts" fetcher]
  ∧ second.1 = Ok (i, VPromise (PExt 1))
  ∧ second.1 ≠ Ok (i, registered)
  ∧ dispatched second.2 = [StartQuest "posts" fetcher; StartQuest "posts" fetcher]
  ∧ promises second.2 !! "posts" = Some (VPromise (PThenCleanup (PExt 1) "posts")).
Proof.
  repeat split; try (vm_compute; reflexivity).
  vm_compute. intros H. discriminate H.
Qed.

(** With [fetchOnce] a predicate that answers falsy, a clean record defers
    the fetch and a failed record does not. *)
Example fetchOnce_defers_unless_failed :
  canFetchOnce env deferred "posts" (instance defaultRecord) VUndefined
  = Ok VUndefined
  ∧ canFetchOnce env deferred "posts" (instance failedRecord) VUndefined
    = Ok (VBool true).
Proof. split; reflexivity. Qed.

End Instances.

(** * Further properties of quest.js *)

Section LifecycleInvariants.
Import Quest.

Variable env : Env.
Variable o : Options.
Variable key : string.

#[local] Abbreviation updateData := (updateData env o key).
#[local] Abbreviation canFetchOnce := (canFetchOnce env o key).
#[local] Abbreviation componentWillMount := (componentWillMount env o key).
#[local] Abbreviation componentDidMount := (componentDidMount env o key).
#[local] Abbreviation componentWillReceiveProps :=
  (componentWillReceiveProps env o key).

Ltac run := unfold mbind, M_bind, mret, M_ret, lift, dispatch; cbn beta iota.

Lemma updateData_refetch_cases (props np : value) (w : World) :
  (∃ e, updateData props VUndefined np w = (Throw e, w))
  ∨ (∃ fetcher,
       updateData props VUndefined np w
       = (Ok (dispatch_returns env (dispatched w) (StartQuest key fetcher)),
          sent (StartQuest key fetcher) w)).
Proof.
  unfold Quest.updateData. run.
  destruct (options_query env o props np) as [q|e]; [|left; by exists e].
  destruct (get_prop (resolver o) "get") as [g|e]; [|left; by exists e].
  cbn [mbind result_bind].
  destruct (bind_null g [VObj [("query", q)]]) as [f|e]; [|left; by exists e].
  right. by exists f.
Qed.

Lemma track_other_keys (r : value) (w : World) (k : string) :
  k ≠ key → promises (track env key r w).2 !! k = promises w !! k.
Proof.
  intros Hk. unfold track, register. run.
  destruct (truthy r); [|reflexivity].
  destruct (get_prop r "then") as [t|]; cbn [mbind result_bind]; [|reflexivity].
  destruct (truthy t); [|reflexivity].
  destruct (then_cleanup env key r); [|reflexivity].
  cbn [snd promises]. by apply lookup_insert_ne.
Qed.

(** X1. The code of a lifecycle method sends the store at most one
    command, and the command is START for the key of the component: of its
    own it never sends RESOLVE and never addresses another key, whatever
    the options and the props are.  (The application's callbacks are
    taken as predicates: what a callback would dispatch itself through the
    props it is handed is not counted.) *)
Theorem lifecycle_sends_at_most_one_start
  (i : Instance) (np : value) (w : World) :
  (quiet (componentWillMount i) w ∨ fetches key (componentWillMount i) w)
  ∧ (quiet (componentDidMount i) w ∨ fetches key (componentDidMount i) w)
  ∧ (quiet (componentWillReceiveProps i np) w
     ∨ fetches key (componentWillReceiveProps i np) w).
Proof.
  split; [|split].
  - unfold quiet, fetches, Quest.componentWillMount, peek. run.
    destruct (if truthy (fetchOnServer o) then _ else _) as [[|]|e];
      [| |by left].
    + destruct (updateData_refetch_cases
                  (ownProps (set_fetched false i)) VUndefined w)
        as [[e He]|[f Hf]].
      * rewrite He. by left.
      * rewrite Hf. right. exists f.
        match goal with
        | |- context [track env key ?r ?w'] =>
            pose proof (track_log env key r w') as Hl;
            destruct (track env key r w') as [[[]|e] w'']
        end; exact Hl.
    + left.
      destruct (get_prop (props (set_fetched false i)) key) as [rec|];
        [|reflexivity].
      destruct (get_prop rec "loading") as [l|]; [|reflexivity].
      destruct (truthy l); reflexivity.
  - unfold quiet, fetches, Quest.componentDidMount. run.
    destruct (if negb (truthy (fetchOnServer o)) then _ else _) as [[|]|e];
      [| |by left]; [|by left].
    destruct (updateData_refetch_cases
                (ownProps (set_fetched true i)) VUndefined w)
      as [[e He]|[f Hf]].
    + rewrite He. by left.
    + rewrite Hf. right. by exists f.
  - unfold quiet, fetches, Quest.componentWillReceiveProps. run.
    destruct (result_bind _ _ _ (canFetchOnce i np)) as [[|]|e];
      [| |by left]; [|by left].
    destruct (updateData_refetch_cases (ownProps (set_fetched true i)) np w)
      as [[e He]|[f Hf]].
    + rewrite He. by left.
    + rewrite Hf. right. by exists f.
Qed.

(** X2. The registrations of other keys are out of reach: mounting leaves
    every cache entry under a different key as it was, and the two later
    lifecycle methods do not write to the cache at all. *)
Theorem lifecycle_keeps_other_registrations
  (i : Instance) (np : value) (w : World) (k : string) :
  k ≠ key →
  promises (componentWillMount i w).2 !! k = promises w !! k
  ∧ promises (componentDidMount i w).2 = promises w
  ∧ promises (componentWillReceiveProps i np w).2 = promises w.
Proof.
  intros Hk. split; [|split].
  - unfold Quest.componentWillMount, peek. run.
    destruct (if truthy (fetchOnServer o) then _ else _) as [[|]|e];
      [| |reflexivity].
    + destruct (updateData_refetch_cases
                  (ownProps (set_fetched false i)) VUndefined w)
        as [[e He]|[f Hf]].
      * rewrite He. reflexivity.
      * rewrite Hf.
        match goal with
        | |- context [track env key ?r ?w'] =>
            pose proof (track_other_keys r w' k Hk) as Hl;
            destruct (track env key r w') as [[[]|e] w'']
        end; exact Hl.
    + destruct (get_prop (props (set_fetched false i)) key) as [rec|];
        [|reflexivity].
      destruct (get_prop rec "loading") as [l|]; [|reflexivity].
      destruct (truthy l); reflexivity.
  - unfold Quest.componentDidMount. run.
    destruct (if negb (truthy (fetchOnServer o)) then _ else _) as [[|]|e];
      try reflexivity.
    destruct (updateData_refetch_cases
                (ownProps (set_fetched true i)) VUndefined w)
      as [[e He]|[f Hf]]; [rewrite He|rewrite Hf]; reflexivity.
  - unfold Quest.componentWillReceiveProps. run.
    destruct (result_bind _ _ _ (canFetchOnce i np)) as [[|]|e];
      try reflexivity.
    destruct (updateData_refetch_cases (ownProps (set_fetched true i)) np w)
      as [[e He]|[f Hf]]; [rewrite He|rewrite Hf]; reflexivity.
Qed.

End LifecycleInvariants.

Section FetchOnce.
Import Quest.

Variable env : Env.
Variable o : Options.
Variable key : string.

#[local] Abbreviation canFetchOnce := (canFetchOnce env o key).
#[local] Abbreviation componentWillMount := (componentWillMount env o key).
#[local] Abbreviation componentDidMount := (componentDidMount env o key).
#[local] Abbreviation componentWillReceiveProps :=
  (componentWillReceiveProps env o key).

Hypothesis Hsetup : quest_setup o = Ok key.
Hypothesis Hquery : ∀ props np, is_ok (options_query env o props np) = true.

Ltac run := unfold mbind, M_bind, mret, M_ret, lift, dispatch; cbn beta iota.

Lemma log_grew (w : World) (cmd : action) :
  dispatched w ≠ (dispatched w ++ [cmd])%list.
Proof.
  intros H. apply (f_equal length) in H. rewrite length_app in H.
  simpl in H. lia.
Qed.

Lemma canFetchOnce_fetched (i : Instance) (np : value) :
  fetched i = true → canFetchOnce i np = Ok (VBool false).
Proof. intros Hf. unfold Quest.canFetchOnce. rewrite Hf. reflexivity. Qed.

Lemma canFetchOnce_ready (i : Instance) (rec ready np : value) :
  get_prop (props i) key = Ok rec →
  get_prop rec "ready" = Ok ready →
  truthy ready = true →
  canFetchOnce i np = Ok (VBool false).
Proof.
  intros Hp Hr Ht. unfold Quest.canFetchOnce.
  destruct (fetched i); [reflexivity|].
  rewrite Hp. cbn [mbind result_bind]. rewrite Hr.
  cbn [mbind result_bind]. rewrite Ht. reflexivity.
Qed.

Lemma receiveProps_by_refetchWhen (i : Instance) (np : value) (w : World) :
  canFetchOnce i np = Ok (VBool false) →
  match invoke env (refetchWhen o) [props i; np] with
  | Ok again =>
      if truthy again
      then fetches key (componentWillReceiveProps i np) w
      else quiet (componentWillReceiveProps i np) w
  | Throw _ => quiet (componentWillReceiveProps i np) w
  end.
Proof.
  intros Hc.
  destruct (invoke env (refetchWhen o) [props i; np]) as [again|e] eqn:Hr.
  - destruct (truthy again) eqn:Ha.
    + apply (receiveProps_fetch env o key Hsetup Hquery). right.
      by exists (VBool false), again.
    + apply receiveProps_quiet. right; right. by exists (VBool false), again.
  - apply receiveProps_quiet. right; left. by exists (VBool false), e.
Qed.

(** X3. A component whose [fetched] flag is set is never let through by
    [canFetchOnce] again: [componentDidMount] dispatches nothing, and a
    change of props dispatches exactly when [refetchWhen(props, nextProps)]
    answers truthy. *)
Theorem fetched_component_only_refetches
  (i : Instance) (np : value) (w : World) :
  fetched i = true →
  canFetchOnce i np = Ok (VBool false)
  ∧ quiet (componentDidMount i) w
  ∧ match invoke env (refetchWhen o) [props i; np] with
    | Ok again =>
        if truthy again
        then fetches key (componentWillReceiveProps i np) w
        else quiet (componentWillReceiveProps i np) w
    | Throw _ => quiet (componentWillReceiveProps i np) w
    end.
Proof.
  intros Hf. split; [by apply canFetchOnce_fetched|]. split.
  - apply didMount_quiet. right; right. exists (VBool false).
    split; [by apply canFetchOnce_fetched|reflexivity].
  - apply receiveProps_by_refetchWhen. by apply canFetchOnce_fetched.
Qed.

(** X4. [componentDidMount] and [componentWillReceiveProps] either
    dispatch nothing or return normally with the component's [fetched]
    flag set and its props untouched: no fetch leaves them without the
    flag. *)
Theorem dispatching_sets_fetched (i : Instance) (np : value) (w : World) :
  (quiet (componentDidMount i) w
   ∨ (componentDidMount i w).1 = Ok (set_fetched true i))
  ∧ (quiet (componentWillReceiveProps i np) w
     ∨ (componentWillReceiveProps i np w).1 = Ok (set_fetched true i)).
Proof.
  split.
  - unfold quiet, Quest.componentDidMount. run.
    destruct (if negb (truthy (fetchOnServer o)) then _ else _) as [[|]|e];
      try by left.
    destruct (updateData_refetch_cases env o key
                (ownProps (set_fetched true i)) VUndefined w)
      as [[e He]|[f Hf]]; [rewrite He; by left|rewrite Hf; by right].
  - unfold quiet, Quest.componentWillReceiveProps. run.
    destruct (result_bind _ _ _ (canFetchOnce i np)) as [[|]|e];
      try by left.
    destruct (updateData_refetch_cases env o key
                (ownProps (set_fetched true i)) np w)
      as [[e He]|[f Hf]]; [rewrite He; by left|rewrite Hf; by right].
Qed.

(** X5. A record marked [ready] closes the gate whatever the options and
    the [fetched] flag are: neither mount step dispatches, and a change of
    props dispatches exactly when [refetchWhen] answers truthy. *)
Theorem ready_record_is_not_fetched
  (i : Instance) (rec ready np : value) (w : World) :
  get_prop (props i) key = Ok rec →
  get_prop rec "ready" = Ok ready →
  truthy ready = true →
  canFetchOnce i np = Ok (VBool false)
  ∧ quiet (componentWillMount i) w
  ∧ quiet (componentDidMount i) w
  ∧ match invoke env (refetchWhen o) [props i; np] with
    | Ok again =>
        if truthy again
        then fetches key (componentWillReceiveProps i np) w
        else quiet (componentWillReceiveProps i np) w
    | Throw _ => quiet (componentWillReceiveProps i np) w
    end.
Proof.
  intros Hp Hr Ht.
  assert (Hc : ∀ j np', props j = props i →
                 canFetchOnce j np' = Ok (VBool false)).
  { intros j np' Hj. apply (canFetchOnce_ready j rec ready); [|done..].
    by rewrite Hj. }
  split; [by apply Hc|]. split; [|split].
  - unfold quiet, Quest.componentWillMount, peek. run.
    rewrite (Hc (set_fetched false i) VUndefined eq_refl).
    cbn [mbind result_bind truthy]. cbn [props set_fetched].
    destruct (truthy (fetchOnServer o)); rewrite Hp;
      (destruct (get_prop rec "loading") as [l|]; [|reflexivity]);
      destruct (truthy l); reflexivity.
  - apply didMount_quiet. right; right. exists (VBool false).
    split; [by apply Hc|reflexivity].
  - apply receiveProps_by_refetchWhen. by apply Hc.
Qed.

(** X6. [componentWillMount] never sets [fetched].  So with the default
    gate ([fetchOnServer] on, [fetchOnce] unset) and a record that is not
    [ready], a component that fetched while mounting fetches again on the
    first change of props: two STARTs go out. *)
Theorem mount_then_props_fetches_twice
  (i i1 : Instance) (rec ready r np : value) (w w1 : World) :
  truthy (fetchOnServer o) = true →
  truthy (fetchOnce o) = false →
  get_prop (props i) key = Ok rec →
  get_prop rec "ready" = Ok ready →
  truthy ready = false →
  componentWillMount i w = (Ok (i1, r), w1) →
  fetched i1 = false
  ∧ ∃ first second,
      dispatched (componentWillReceiveProps i1 np w1).2
      = (dispatched w ++ [StartQuest key first; StartQuest key second])%list.
Proof.
  intros Hs Ho Hp Hr Ht Hm.
  assert (Hc : ∀ np', canFetchOnce (set_fetched false i) np' = Ok (VBool true))
    by (intros; by apply (canFetchOnce_unset env o key _ rec ready)).
  destruct (willMount_fetch env o key Hsetup Hquery i w (VBool true) Hs
              (Hc VUndefined) eq_refl) as (f & Hf).
  cbn zeta in Hf. rewrite Hf in Hm. revert Hm. run.
  match goal with
  | |- context [track env key ?v ?w'] =>
      pose proof (track_log env key v w') as Hl;
      destruct (track env key v w') as [[[]|e] w'']
  end; [|intros [=]].
  intros [= <- _ <-]. split; [reflexivity|].
  destruct (receiveProps_fetch env o key Hsetup Hquery
              (set_fetched false i) np w'') as [g Hg].
  { left. exists (VBool true). by rewrite Hc. }
  exists f, g. rewrite Hg. cbn [snd] in Hl. rewrite Hl.
  cbn [sent dispatched]. by rewrite <- app_assoc.
Qed.

(** X7. The fetch on a change of props is bound to the query computed
    from the next props: with [query] a function and [nextProps] truthy,
    the START that goes out, be it the first fetch [canFetchOnce] lets
    through or a refetch [refetchWhen] asks for, carries [resolver.get]
    bound to [{ query: query(nextProps) }]. *)
Theorem refetch_binds_query_of_next_props
  (i : Instance) (np q c : value) (f : fn_id) (w : World) :
  query o = VFun f →
  truthy np = true →
  call env f [np] = Ok q →
  canFetchOnce i np = Ok c →
  truthy c = true
  ∨ yes (invoke env (refetchWhen o) [props i; np]) = true →
  ∃ get,
    get_prop (resolver o) "get" = Ok get
    ∧ componentWillReceiveProps i np w
      = (Ok (set_fetched true i),
         sent (StartQuest key (VBound get [VObj [("query", q)]])) w).
Proof.
  intros Hq Hnp Hcall Hc Hgo.
  destruct (setup_get o key Hsetup) as (get & Hget & Hfun).
  exists get. split; [exact Hget|].
  assert (Hoq : options_query env o (ownProps (set_fetched true i)) np = Ok q).
  { unfold options_query, or_. rewrite Hq, Hnp. exact Hcall. }
  pose proof (updateData_runs env o key (ownProps (set_fetched true i))
                VUndefined np q get w Hoq Hget Hfun) as Hu.
  unfold Quest.componentWillReceiveProps. run.
  rewrite Hc. cbn [mbind result_bind].
  destruct (truthy c) eqn:Ht.
  - rewrite Hu. reflexivity.
  - destruct Hgo as [Hgo|Hgo]; [discriminate Hgo|].
    destruct (invoke env (refetchWhen o) [props i; np]) as [again|];
      [|discriminate Hgo].
    cbn [yes] in Hgo. cbn [mbind result_bind]. rewrite Hgo, Hu. reflexivity.
Qed.

(** X8. Registration and cleanup undo each other.  When the mount step
    fetches, the store answers with a promise and the key had no entry, the
    cache holds the derived promise under the key afterwards, and once the
    store's promise fulfils the cache is exactly what it was before the
    mount, with the command log untouched by the settlement. *)
Theorem register_then_fulfil_restores_cache
  (i : Instance) (c v : value) (id : nat) (w : World) :
  truthy (fetchOnServer o) = true →
  canFetchOnce (set_fetched false i) VUndefined = Ok c →
  truthy c = true →
  (∀ cmd, dispatch_returns env (dispatched w) cmd = VPromise (PExt id)) →
  promises w !! key = None →
  let w1 := (componentWillMount i w).2 in
  let registered := PThenCleanup (PExt id) key in
  promises w1 !! key = Some (VPromise registered)
  ∧ promises (settle registered (Fulfilled v) w1).2 = promises w
  ∧ dispatched (settle registered (Fulfilled v) w1).2 = dispatched w1.
Proof.
  intros Hs Hc Ht Hd Hn.
  destruct (willMount_fetch env o key Hsetup Hquery i w c Hs Hc Ht) as (f & Hf).
  cbn zeta in *. rewrite Hf, Hd. run. rewrite track_promise.
  cbn [snd settle cleanup with_promises promises dispatched].
  split; [apply lookup_insert_eq|]. split; [|reflexivity].
  rewrite delete_insert_eq. by apply delete_id.
Qed.

(** X9. Only a thenable is registered: when what the store hands back for
    the START is falsy or has no truthy [then], the mount step returns it
    and leaves the cache as it was. *)
Theorem mount_registers_only_thenables
  (i : Instance) (c : value) (w : World) :
  truthy (fetchOnServer o) = true →
  canFetchOnce (set_fetched false i) VUndefined = Ok c →
  truthy c = true →
  (∀ cmd, thenable (dispatch_returns env (dispatched w) cmd) = false) →
  ∃ fetcher,
    let cmd := StartQuest key fetcher in
    componentWillMount i w
    = (Ok (set_fetched false i, dispatch_returns env (dispatched w) cmd),
       sent cmd w).
Proof.
  intros Hs Hc Ht Hd.
  destruct (willMount_fetch env o key Hsetup Hquery i w c Hs Hc Ht) as (f & Hf).
  exists f. cbn zeta in *. rewrite Hf. specialize (Hd (StartQuest key f)).
  unfold thenable in Hd. unfold track. run.
  destruct (dispatch_returns env (dispatched w) (StartQuest key f)) as
    [| |[|]| | |fields| | | | | | | | |];
    cbn [truthy get_prop yes mbind result_bind] in *;
    try reflexivity; try discriminate Hd.
  all: try (destruct (negb _); reflexivity).
  all: rewrite Hd; reflexivity.
Qed.

(** X19. A [fetchOnce] predicate gates the fetch of a component that has
    not fetched, on a record that is neither [ready] nor failed:
    [canFetchOnce] lets it through exactly when the predicate answers
    truthy, and the predicate is asked about the next props when there are
    some and about the current props otherwise. *)
Theorem fetchOnce_predicate_gates_the_fetch
  (i : Instance) (rec ready err np answer : value) (f : fn_id) :
  fetchOnce o = VFun f →
  fetched i = false →
  get_prop (props i) key = Ok rec →
  get_prop rec "ready" = Ok ready →
  truthy ready = false →
  get_prop rec "error" = Ok err →
  truthy err = false →
  call env f [if truthy np then np else props i] = Ok answer →
  canFetchOnce i np = Ok (if truthy answer then VBool true else VUndefined).
Proof.
  intros Ho Hf Hp Hr Ht He Hte Hcall. unfold Quest.canFetchOnce.
  rewrite Hf, Hp. cbn [mbind result_bind]. rewrite Hr.
  cbn [mbind result_bind]. rewrite Ht, Ho. cbn [truthy negb].
  cbn [mbind result_bind]. rewrite He. cbn [mbind result_bind].
  rewrite Hte. cbn [typeof String.eqb Ascii.eqb Bool.eqb negb invoke].
  unfold or_. rewrite Hcall. cbn [mbind result_bind].
  destruct (truthy answer); reflexivity.
Qed.

(** X20. Only a function can defer a fetch: when [fetchOnce] is anything
    else ([true] as much as unset), a component that has not fetched is
    let through on every record that is not [ready]. *)
Theorem only_a_predicate_defers (i : Instance) (rec ready np : value) :
  String.eqb (typeof (fetchOnce o)) "function" = false →
  fetched i = false →
  get_prop (props i) key = Ok rec →
  get_prop rec "ready" = Ok ready →
  truthy ready = false →
  canFetchOnce i np = Ok (VBool true).
Proof.
  intros Ho Hf Hp Hr Ht. unfold Quest.canFetchOnce.
  rewrite Hf, Hp. cbn [mbind result_bind]. rewrite Hr.
  cbn [mbind result_bind]. rewrite Ht, Ho. cbn [negb].
  destruct (truthy (fetchOnce o)) eqn:Hto; cbn [negb]; [|reflexivity].
  destruct (get_prop rec "error") as [err|e] eqn:He.
  - cbn [mbind result_bind]. destruct (truthy err); [reflexivity|].
    unfold to_bool. by rewrite Hto.
  - destruct rec; discriminate.
Qed.

End FetchOnce.

(** * The data-mapping stages and [quest.sync] *)

Section ObjectLiterals.

Lemma assoc_set_field_eq (name : string) (v : value)
  (fields : list (string * value)) :
  assoc name (set_field name v fields) = Some v.
Proof.
  induction fields as [|[k w] rest IH]; simpl.
  - by rewrite String.eqb_refl.
  - destruct (String.eqb k name) eqn:E; simpl; rewrite E; [reflexivity|exact IH].
Qed.

Lemma assoc_set_field_ne (name other : string) (v : value)
  (fields : list (string * value)) :
  name ≠ other →
  assoc other (set_field name v fields) = assoc other fields.
Proof.
  intros Hne. induction fields as [|[k w] rest IH]; simpl.
  - by apply String.eqb_neq in Hne as ->.
  - destruct (String.eqb_spec k name) as [->|Hk]; simpl.
    + by apply String.eqb_neq in Hne as ->.
    + rewrite IH. reflexivity.
Qed.

Lemma assoc_spread_none (name : string)
  (extra fields : list (string * value)) :
  assoc name extra = None →
  assoc name (spread fields extra) = assoc name fields.
Proof.
  revert fields. unfold spread.
  induction extra as [|[k v] rest IH]; intros fields H; [reflexivity|].
  cbn [fold_left fst snd]. simpl in H.
  destruct (String.eqb_spec k name) as [->|Hk]; [discriminate H|].
  rewrite (IH _ H). by apply assoc_set_field_ne.
Qed.

End ObjectLiterals.

Section DataStages.
Import Quest Stages.

Variable env : Env.
Variable o : Options.
Variable key : string.
Variable branch : value.

#[local] Abbreviation dataStages := (dataStages env o key branch).

Lemma option_and_data_null (option props rec : value) :
  get_prop props key = Ok rec →
  get_prop rec "data" = Ok VNull →
  option_and_data key option props = Ok false.
Proof.
  intros Hp Hd. unfold option_and_data, hasData.
  destruct (truthy option); [|reflexivity].
  rewrite Hp. cbn [mbind result_bind]. rewrite Hd. reflexivity.
Qed.

Lemma option_and_data_unset (option props : value) :
  truthy option = false → option_and_data key option props = Ok false.
Proof. intros H. unfold option_and_data. by rewrite H. Qed.

Lemma mapDataStage_skip (props : value) :
  option_and_data key (mapData o) props = Ok false →
  mapDataStage env o key props = Ok (Render props).
Proof. intros H. unfold mapDataStage. by rewrite H. Qed.

Lemma mapToPropsStage_skip (props : value) :
  option_and_data key (mapToProps o) props = Ok false →
  mapToPropsStage env o key props = Ok (Render props).
Proof. intros H. unfold mapToPropsStage. by rewrite H. Qed.

Lemma mapDirectStage_skip (props : value) :
  option_and_data key (mapDirect o) props = Ok false →
  mapDirectStage o key props = Ok (Render props).
Proof. intros H. unfold mapDirectStage. by rewrite H. Qed.

Ltac step := cbn [and_then under mbind result_bind].

Lemma mapDataStage_renders (props : value) :
  renders (mapDataStage env o key props).
Proof.
  unfold mapDataStage.
  destruct (option_and_data key (mapData o) props) as [[|]|]; try exact I.
  cbn [mbind result_bind].
  destruct (get_prop props key) as [rec|]; [|exact I]. cbn [mbind result_bind].
  destruct (get_prop rec "data") as [d|]; [|exact I]. cbn [mbind result_bind].
  destruct (invoke env (mapData o) [d]); exact I.
Qed.

Lemma mapToPropsStage_renders (props : value) :
  renders (mapToPropsStage env o key props).
Proof.
  unfold mapToPropsStage.
  destruct (option_and_data key (mapToProps o) props) as [[|]|]; try exact I.
  cbn [mbind result_bind].
  destruct (get_prop props key) as [rec|]; [|exact I]. cbn [mbind result_bind].
  destruct (get_prop rec "data") as [d|]; [|exact I]. cbn [mbind result_bind].
  destruct (invoke env (mapToProps o) [d; props]); exact I.
Qed.

Lemma mapDirectStage_renders (props : value) :
  renders (mapDirectStage o key props).
Proof.
  unfold mapDirectStage.
  destruct (option_and_data key (mapDirect o) props) as [[|]|]; try exact I.
  cbn [mbind result_bind].
  destruct (get_prop props key) as [rec|]; [|exact I]. cbn [mbind result_bind].
  destruct (get_prop rec "data") as [d|]; exact I.
Qed.

Lemma and_then_renders (v : result view) (next : value → result view) :
  renders v → (∀ p, renders (next p)) → renders (and_then v next).
Proof.
  intros Hv Hn. destruct v as [[p| |p below]|e]; try exact I;
    try contradiction. step. apply Hn.
Qed.

(** X10. While the record holds no data ([data] is [null]) the three
    mapping stages do nothing and call none of the application's mappers.
    With no [branch] given, the props then stop at [waitForData] when it is
    on and nothing is rendered; otherwise they go on with a truthy
    [defaultData] (its value, or what it returns for the props) in the
    [data] field of the record. *)
Theorem no_data_skips_the_mappers (props rec : value) :
  truthy branch = false →
  get_prop props key = Ok rec →
  get_prop rec "data" = Ok VNull →
  dataStages props
  = if truthy (waitForData o)
    then Ok Nothing
    else if truthy (defaultData o)
    then d ← (if String.eqb (typeof (defaultData o)) "function"
              then invoke env (defaultData o) [props]
              else Ok (defaultData o));
         Ok (Render (VObj (set_field key
                             (VObj (set_field "data" d (spread_of rec)))
                             (own_fields props))))
    else Ok (Render props).
Proof.
  intros Hb Hp Hd. unfold Stages.dataStages.
  rewrite mapDataStage_skip by by eapply option_and_data_null. step.
  rewrite mapToPropsStage_skip by by eapply option_and_data_null. step.
  rewrite mapDirectStage_skip by by eapply option_and_data_null. step.
  unfold waitForDataStage, defaultDataStage, hasData.
  destruct (truthy (waitForData o)).
  - rewrite Hp. cbn [mbind result_bind]. rewrite Hd.
    cbn [mbind result_bind]. rewrite Hb. reflexivity.
  - step. rewrite Hp.
    cbn [mbind result_bind]. rewrite Hd. cbn [mbind result_bind].
    destruct (truthy (defaultData o)); reflexivity.
Qed.

(** X11. With [waitForData] on and no [branch] given, [defaultData] has no
    effect at all: whatever reaches the last stage already has data, so
    the stages give the same result as without a [defaultData]. *)
Theorem waitForData_shadows_defaultData (props : value) :
  truthy branch = false →
  truthy (waitForData o) = true →
  dataStages props
  = Stages.dataStages env (without_default o) key branch props.
Proof.
  intros Hb Hw. unfold Stages.dataStages.
  change (mapDataStage env (without_default o) key)
    with (mapDataStage env o key).
  change (mapToPropsStage env (without_default o) key)
    with (mapToPropsStage env o key).
  change (mapDirectStage (without_default o) key)
    with (mapDirectStage o key).
  change (waitForDataStage (without_default o) key branch)
    with (waitForDataStage o key branch).
  pose proof (and_then_renders _ _
                (and_then_renders _ _ (mapDataStage_renders props)
                   mapToPropsStage_renders)
                mapDirectStage_renders) as Hr.
  destruct (and_then (and_then (mapDataStage env o key props) _) _)
    as [[p| |p below]|e]; try reflexivity; try contradiction.
  - unfold and_then, waitForDataStage, defaultDataStage. rewrite Hw, Hb.
    cbn [mbind result_bind under].
    destruct (get_prop p key) as [rec|e'] eqn:Hp; [|reflexivity].
    cbn [mbind result_bind].
    destruct (hasData rec) as [[|]|e'] eqn:Hh; cbn [mbind result_bind under];
      [ |reflexivity|reflexivity].
    destruct (hasError rec) as [[|]|e']; cbn [mbind result_bind under];
      [reflexivity| |reflexivity].
    rewrite Hp. cbn [mbind result_bind]. rewrite Hh. reflexivity.
Qed.

(** X12. Without the mapping stages, without [defaultData] and with no
    [branch] given, a [waitForData] quest renders the component exactly
    when the record has data ([data] is not [null]) and no truthy [error],
    and renders nothing otherwise; without [waitForData] the props pass
    through unchanged. *)
Theorem waitForData_needs_data_and_no_error (props rec d e : value) :
  truthy branch = false →
  truthy (mapData o) = false →
  truthy (mapToProps o) = false →
  truthy (mapDirect o) = false →
  truthy (defaultData o) = false →
  get_prop props key = Ok rec →
  get_prop rec "data" = Ok d →
  get_prop rec "error" = Ok e →
  dataStages props
  = Ok (if truthy (waitForData o)
           && (match d with VNull => true | _ => false end || truthy e)
        then Nothing
        else Render props).
Proof.
  intros Hb Hm Hmp Hmd Hdd Hp Hd He. unfold Stages.dataStages.
  rewrite mapDataStage_skip by by apply option_and_data_unset. step.
  rewrite mapToPropsStage_skip by by apply option_and_data_unset. step.
  rewrite mapDirectStage_skip by by apply option_and_data_unset. step.
  unfold waitForDataStage, defaultDataStage, hasData, hasError.
  rewrite Hp. cbn [mbind result_bind]. rewrite Hd, He, Hdd, Hb.
  cbn [mbind result_bind].
  destruct (truthy (waitForData o)); cbn [andb];
    [|step; rewrite Hp; cbn [mbind result_bind]; rewrite Hd;
      destruct d; reflexivity].
  destruct d; cbn [orb mbind result_bind under]; try reflexivity;
    destruct (truthy e); cbn [mbind result_bind under]; try reflexivity;
    rewrite Hp; cbn [mbind result_bind]; rewrite Hd; reflexivity.
Qed.

(** X13. With [mapDirect] the data itself becomes the key prop, and the
    stages behind it test that value as if it were the record: with no
    [branch] given, whether a [waitForData] quest renders the component or
    nothing is decided by the [data] and [error] members of the data, and
    the [error] of the record is not looked at. *)
Theorem mapDirect_tests_the_data
  (pfields : list (string * value)) (rec d inner_data inner_error : value) :
  truthy branch = false →
  truthy (mapData o) = false →
  truthy (mapToProps o) = false →
  truthy (mapDirect o) = true →
  truthy (waitForData o) = true →
  get_prop (VObj pfields) key = Ok rec →
  get_prop rec "data" = Ok d →
  d ≠ VNull →
  get_prop d "data" = Ok inner_data →
  get_prop d "error" = Ok inner_error →
  let props := VObj (set_field key d pfields) in
  dataStages (VObj pfields)
  = Ok (if match inner_data with VNull => true | _ => false end
           || truthy inner_error
        then Nothing
        else Render props).
Proof.
  intros Hb Hm Hmp Hmd Hw Hp Hd Hn Hid Hie props. unfold Stages.dataStages.
  rewrite mapDataStage_skip by by apply option_and_data_unset. step.
  rewrite mapToPropsStage_skip by by apply option_and_data_unset. step.
  assert (Hhas : hasData rec = Ok true).
  { unfold hasData. rewrite Hd. destruct d; try reflexivity. congruence. }
  unfold mapDirectStage, option_and_data. rewrite Hmd, Hp.
  cbn [mbind result_bind]. rewrite Hhas. cbn [mbind result_bind].
  rewrite Hd. step. cbn [own_fields]. fold props.
  assert (Hk : get_prop props key = Ok d).
  { unfold props. cbn [get_prop]. by rewrite assoc_set_field_eq. }
  unfold waitForDataStage, defaultDataStage, hasData, hasError.
  rewrite Hw, Hk, Hb. cbn [mbind result_bind]. rewrite Hid, Hie.
  cbn [mbind result_bind].
  destruct inner_data; cbn [orb mbind result_bind under]; try reflexivity;
    destruct (truthy inner_error); cbn [mbind result_bind under];
    try reflexivity;
    rewrite Hk; cbn [mbind result_bind]; rewrite Hid; reflexivity.
Qed.

(** X21. The mappers run in order: [mapData] replaces the data of the
    record, keeping its other fields, and [mapToProps] is then given the
    mapped data, not the stored one; its result is spread over the props.
    (Stated for a result that does not itself define the key prop.) *)
Theorem mapToProps_sees_mapped_data
  (pfields rfields efields : list (string * value)) (d m : value)
  (f g : fn_id) :
  mapData o = VFun f →
  mapToProps o = VFun g →
  truthy (mapDirect o) = false →
  truthy (waitForData o) = false →
  get_prop (VObj pfields) key = Ok (VObj rfields) →
  get_prop (VObj rfields) "data" = Ok d →
  d ≠ VNull →
  call env f [d] = Ok m →
  m ≠ VNull →
  call env g [m; VObj (set_field key (VObj (set_field "data" m rfields))
                         pfields)]
  = Ok (VObj efields) →
  assoc key efields = None →
  dataStages (VObj pfields)
  = Ok (Render (VObj (spread
                        (set_field key (VObj (set_field "data" m rfields))
                           pfields)
                        efields))).
Proof.
  intros Hm Hmp Hmd Hw Hp Hd Hn Hf Hmn Hg Hk.
  set (rec' := VObj (set_field "data" m rfields)) in *.
  set (props' := VObj (set_field key rec' pfields)) in *.
  assert (Hhas : ∀ fields v, get_prop (VObj fields) "data" = Ok v →
                   v ≠ VNull → hasData (VObj fields) = Ok true).
  { intros fields v H Hv. unfold hasData. rewrite H.
    destruct v; try reflexivity. congruence. }
  assert (Hp' : get_prop props' key = Ok rec')
    by (unfold props'; cbn [get_prop]; by rewrite assoc_set_field_eq).
  assert (Hd' : get_prop rec' "data" = Ok m)
    by (unfold rec'; cbn [get_prop]; by rewrite assoc_set_field_eq).
  assert (Hhas' : hasData rec' = Ok true) by exact (Hhas _ _ Hd' Hmn).
  unfold Stages.dataStages.
  unfold mapDataStage, option_and_data. rewrite Hm. cbn [truthy].
  rewrite Hp. cbn [mbind result_bind]. rewrite (Hhas _ _ Hd Hn).
  cbn [mbind result_bind]. rewrite Hd. cbn [mbind result_bind invoke].
  rewrite Hf. step. cbn [spread_of own_fields]. fold rec'. fold props'.
  unfold mapToPropsStage, option_and_data. rewrite Hmp. cbn [truthy].
  rewrite Hp'. cbn [mbind result_bind].
  rewrite Hhas'. cbn [mbind result_bind]. rewrite Hd'.
  cbn [mbind result_bind invoke]. rewrite Hg. step.
  cbn [spread_of own_fields].
  rewrite mapDirectStage_skip by by apply option_and_data_unset. step.
  unfold waitForDataStage. rewrite Hw. step.
  unfold defaultDataStage. cbn [get_prop].
  change (own_fields props') with (set_field key rec' pfields).
  rewrite (assoc_spread_none _ _ _ Hk), assoc_set_field_eq.
  cbn [default from_option id mbind result_bind].
  rewrite Hhas'. reflexivity.
Qed.

End DataStages.

Section Sync.
Import Quest Stages.

Lemma quest_setup_synced (o : Options) :
  quest_setup (synced o) = quest_setup o.
Proof. reflexivity. Qed.

(** X14. [quest.sync(opts)] configures what [quest(opts)] configures with
    [mapDirect] and [waitForData] forced to [true], whatever [opts] holds
    for the two, and it fails exactly when [quest(opts)] fails. *)
Theorem quest_sync_forces_two_options (fields : list (string * value)) :
  quest_sync (VObj fields)
  = match quest (VObj fields) with
    | Ok (o, key) => Ok (synced o, key)
    | Throw e => Throw e
    end.
Proof.
  unfold quest_sync, quest, destructure, get_prop. cbn [spread_of own_fields].
  rewrite !assoc_set_field_eq.
  rewrite !(assoc_set_field_ne "waitForData") by discriminate.
  rewrite !assoc_set_field_eq.
  rewrite !(assoc_set_field_ne "mapDirect") by discriminate.
  cbn [mbind result_bind default or_default].
  match goal with
  | |- context [quest_setup ?a] =>
      match goal with
      | |- context [quest_setup ?b] =>
          lazymatch a with
          | b => fail
          | _ => change (quest_setup a) with (quest_setup b)
          end
      end
  end.
  match goal with
  | |- context [quest_setup ?b] => destruct (quest_setup b); reflexivity
  end.
Qed.

End Sync.

(** * Further properties of the class component and of withData *)

Section Callbacks.
Import Quest.

Variable env : Env.
Variable o : Options.
Variable key : string.

Ltac run := unfold mbind, M_bind, mret, M_ret, lift, dispatch; cbn beta iota.

Lemma invoke_not_function (f : value) (args : list value) :
  String.eqb (typeof f) "function" = false →
  invoke env f args = Throw (TypeError "not a function").
Proof. destruct f; simpl; intros H; try discriminate H; reflexivity. Qed.

(** X15. [refetchWhen] is called unchecked.  When it is not a function
    (an explicit [null], say, which the parameter default does not
    replace) and [canFetchOnce] does not let the component through, a
    change of props throws a TypeError and dispatches nothing. *)
Theorem refetchWhen_must_be_callable
  (i : Instance) (np c : value) (w : World) :
  String.eqb (typeof (refetchWhen o)) "function" = false →
  canFetchOnce env o key i np = Ok c →
  truthy c = false →
  componentWillReceiveProps env o key i np w
  = (Throw (TypeError "not a function"), w).
Proof.
  intros Hf Hc Ht. unfold componentWillReceiveProps. run.
  rewrite Hc. cbn [mbind result_bind]. rewrite Ht.
  rewrite (invoke_not_function _ _ Hf). reflexivity.
Qed.

(** X16. The body of a method closure hands the resolver's method the
    caller's query with the record's current data in its [data] member
    (the record's data wins over a [data] member of the query) and passes
    what the method returns to [updateData]: one command goes out, START
    with [resolver.get] for [undefined], START with the returned function
    for a function, RESOLVE with the returned value otherwise. *)
Theorem method_body_updates_with_result
  (ownProps props rec d query fn next q get : value) (method : string)
  (w : World) :
  get_prop props key = Ok rec →
  get_prop rec "data" = Ok d →
  get_prop (resolver o) method = Ok fn →
  invoke env fn [VObj (set_field "data" d (spread_of query))] = Ok next →
  options_query env o ownProps VUndefined = Ok q →
  get_prop (resolver o) "get" = Ok get →
  String.eqb (typeof get) "function" = true →
  assoc "data" (set_field "data" d (spread_of query)) = Some d
  ∧ ∃ cmd,
      method_body env o key ownProps props method query w
      = (Ok (dispatch_returns env (dispatched w) cmd), sent cmd w)
      ∧ cmd = match next with
              | VUndefined => StartQuest key (VBound get [VObj [("query", q)]])
              | _ => if String.eqb (typeof next) "function"
                     then StartQuest key next
                     else ResolveQuest key next
              end.
Proof.
  intros Hp Hd Hm Hcall Hq Hget Hfun.
  split; [apply assoc_set_field_eq|].
  eexists. split; [|reflexivity].
  unfold method_body. run. rewrite Hp, Hd, Hm, Hcall.
  exact (updateData_runs env o key ownProps next VUndefined q get w Hq Hget Hfun).
Qed.

End Callbacks.

Section LegacyComponent.
Import WithData LegacyLifecycle.

Lemma spread_single (fields : list (string * value)) (name : string)
  (v : value) :
  spread fields [(name, v)] = set_field name v fields.
Proof. reflexivity. Qed.

(** X17. In withData the generated [get<Key>] prop is always the update
    trigger [() => props.update()]: the second [withProps] writes it after
    the first one, so it replaces the prop generated for a resolver method
    that is itself called [get]. *)
Theorem legacy_get_prop_is_the_update_trigger
  (toUpperCase : string → string) (resolver props : value)
  (c : ascii) (rest : string) :
  ∃ fields mid,
    programaticProps toUpperCase resolver (String c rest) props
    = Ok (VObj fields)
    ∧ assoc ("get" ++ toUpperCase (String c EmptyString) ++ rest) fields
      = Some (VLegacyGet mid)
    ∧ withProps (methodProps toUpperCase resolver (String c rest)) props
      = Ok mid.
Proof.
  unfold programaticProps, withProps, methodProps.
  destruct (fold_add_method_names toUpperCase c rest props
              (object_keys resolver) []) as (generated & Hg & _).
  rewrite Hg. cbn [mbind result_bind own_fields].
  unfold getProp. rewrite capitalize_cons. cbn [mbind result_bind own_fields].
  rewrite spread_single. eexists _, _.
  split; [reflexivity|]. split; [apply assoc_set_field_eq|reflexivity].
Qed.

Variable env : Quest.Env.
Variable o : Options.
Variable key : string.

(** X18. What withData dispatches while mounting.  Before mounting it
    dispatches one update, bound to the props, unless the component is
    [async] or the record is completed or in progress; after mounting it
    dispatches one exactly when the component is [async] or the record
    carries an error.  So an [async] component fetches on every mount,
    completed or not, and a record in progress is never fetched again
    before mounting. *)
Theorem legacy_mount_updates
  (thisProps props rec get completed inProgress err : value) :
  get_prop (resolver o) "get" = Ok get →
  String.eqb (typeof get) "function" = true →
  get_prop thisProps key = Ok rec →
  get_prop rec "completed" = Ok completed →
  get_prop rec "inProgress" = Ok inProgress →
  get_prop rec "error" = Ok err →
  let cmd := UpdateData key (Fetch (VBound get [props])) in
  componentWillMount o key thisProps props
  = Ok (if negb (truthy (async o)) && negb (truthy completed)
           && negb (truthy inProgress)
        then [cmd] else [])
  ∧ componentDidMount o key thisProps props
    = Ok (if truthy (async o) || truthy err then [cmd] else []).
Proof.
  intros Hget Hfun Hp Hc Hi He cmd.
  assert (Hb : ∀ args, Quest.bind_null get args = Ok (VBound get args)).
  { intros args. unfold Quest.bind_null. rewrite Hfun.
    destruct get; try discriminate; reflexivity. }
  assert (Hu : update o key props VUndefined = Ok [cmd]).
  { unfold update. rewrite Hget. cbn [mbind result_bind]. by rewrite Hb. }
  split.
  - unfold componentWillMount. rewrite Hget. cbn [mbind result_bind].
    rewrite Hb. cbn [mbind result_bind].
    destruct (truthy (async o)); cbn [negb andb mbind result_bind];
      [reflexivity|].
    rewrite Hp. cbn [mbind result_bind]. rewrite Hc. cbn [mbind result_bind].
    destruct (truthy completed); cbn [negb andb mbind result_bind];
      [reflexivity|].
    rewrite Hi. cbn [mbind result_bind].
    destruct (truthy inProgress); cbn [negb mbind result_bind];
      [reflexivity|exact Hu].
  - unfold componentDidMount.
    destruct (truthy (async o)); cbn [orb mbind result_bind]; [exact Hu|].
    rewrite Hp. cbn [mbind result_bind]. rewrite He. cbn [mbind result_bind].
    destruct (truthy err); [exact Hu|reflexivity].
Qed.

End LegacyComponent.

(** ** The further properties at concrete inputs *)

Section FurtherInstances.
Import Quest Stages Scenario.

Lemma nullRefetch_query (props np : value) :
  is_ok (options_query env nullRefetch props np) = true.
Proof. reflexivity. Defined.

Lemma plain_query (props np : value) :
  is_ok (options_query plainEnv opts props np) = true.
Proof. reflexivity. Defined.

Lemma lifecycle_keeps_other_registrations_witness :
  promises (componentWillMount env opts "posts" (instance defaultRecord)
              inFlight).2 !! "users"
  = promises inFlight !! "users"
  ∧ promises (componentDidMount env opts "posts" (instance defaultRecord)
                inFlight).2 = promises inFlight
  ∧ promises (componentWillReceiveProps env opts "posts"
                (instance defaultRecord) VUndefined inFlight).2
    = promises inFlight.
Proof.
  apply (lifecycle_keeps_other_registrations env opts "posts"
           (instance defaultRecord) VUndefined inFlight "users").
  intros H. discriminate H.
Defined.

Lemma fetched_component_only_refetches_witness :
  let np := VObj [("posts", record_obj failedRecord)] in
  canFetchOnce env opts "posts" fetchedInstance np = Ok (VBool false)
  ∧ quiet (componentDidMount env opts "posts" fetchedInstance) inFlight
  ∧ match invoke env (refetchWhen opts) [props fetchedInstance; np] with
    | Ok again =>
        if truthy again
        then fetches "posts"
               (componentWillReceiveProps env opts "posts" fetchedInstance np)
               inFlight
        else quiet
               (componentWillReceiveProps env opts "posts" fetchedInstance np)
               inFlight
    | Throw _ =>
        quiet (componentWillReceiveProps env opts "posts" fetchedInstance np)
              inFlight
    end.
Proof.
  apply (fetched_component_only_refetches env opts "posts" opts_setup
           opts_query fetchedInstance).
  reflexivity.
Defined.

Lemma ready_record_is_not_fetched_witness :
  let i := {| fetched := false; props := VObj [("posts", readyRecord)];
              ownProps := VObj [] |} in
  canFetchOnce env opts "posts" i VUndefined = Ok (VBool false)
  ∧ quiet (componentWillMount env opts "posts" i) start
  ∧ quiet (componentDidMount env opts "posts" i) start
  ∧ match invoke env (refetchWhen opts) [props i; VUndefined] with
    | Ok again =>
        if truthy again
        then fetches "posts"
               (componentWillReceiveProps env opts "posts" i VUndefined) start
        else quiet (componentWillReceiveProps env opts "posts" i VUndefined)
               start
    | Throw _ =>
        quiet (componentWillReceiveProps env opts "posts" i VUndefined) start
    end.
Proof.
  apply (ready_record_is_not_fetched env opts "posts" opts_setup opts_query
           _ readyRecord (VBool true)); reflexivity.
Defined.

Lemma mount_then_props_fetches_twice_witness :
  fetched (instance defaultRecord) = false
  ∧ ∃ first second,
      dispatched
        (componentWillReceiveProps env opts "posts" (instance defaultRecord)
           (VObj [("posts", record_obj loadingRecord)]) inFlight).2
      = (dispatched start
           ++ [StartQuest "posts" first; StartQuest "posts" second])%list.
Proof.
  apply (mount_then_props_fetches_twice env opts "posts" opts_setup opts_query
           (instance defaultRecord) (instance defaultRecord)
           (record_obj defaultRecord) VUndefined (VPromise (PExt 0))
           (VObj [("posts", record_obj loadingRecord)]) start inFlight);
    reflexivity.
Defined.

Lemma requeried_setup : quest_setup requeried = Ok "posts".
Proof. reflexivity. Defined.

Lemma refetch_binds_query_of_next_props_witness :
  let np := VObj [("filter", VStr "new")] in
  canFetchOnce queryEnv requeried "posts" fetchedInstance np = Ok (VBool false)
  ∧ ∃ get,
      get_prop (resolver requeried) "get" = Ok get
      ∧ componentWillReceiveProps queryEnv requeried "posts"
          fetchedInstance np start
        = (Ok (set_fetched true fetchedInstance),
           sent (StartQuest "posts" (VBound get [VObj [("query", np)]])) start).
Proof.
  split; [reflexivity|].
  apply (refetch_binds_query_of_next_props queryEnv requeried "posts"
           requeried_setup fetchedInstance
           (VObj [("filter", VStr "new")]) (VObj [("filter", VStr "new")])
           (VBool false) 5); try reflexivity.
  right. reflexivity.
Defined.

Lemma register_then_fulfil_restores_cache_witness :
  let w1 := (componentWillMount env opts "posts" (instance defaultRecord)
               start).2 in
  let registered := PThenCleanup (PExt 0) "posts" in
  promises w1 !! "posts" = Some (VPromise registered)
  ∧ promises (settle registered (Fulfilled (VStr "done")) w1).2
    = promises start
  ∧ dispatched (settle registered (Fulfilled (VStr "done")) w1).2
    = dispatched w1.
Proof.
  apply (register_then_fulfil_restores_cache env opts "posts" opts_setup
           opts_query (instance defaultRecord) (VBool true) (VStr "done") 0
           start); reflexivity.
Defined.

Lemma mount_registers_only_thenables_witness :
  ∃ fetcher,
    let cmd := StartQuest "posts" fetcher in
    componentWillMount plainEnv opts "posts" (instance defaultRecord) start
    = (Ok (set_fetched false (instance defaultRecord),
           dispatch_returns plainEnv (dispatched start) cmd),
       sent cmd start).
Proof.
  apply (mount_registers_only_thenables plainEnv opts "posts" opts_setup
           plain_query (instance defaultRecord) (VBool true) start);
    reflexivity.
Defined.

Lemma no_data_skips_the_mappers_witness :
  let props := VObj [("posts", defaultState)] in
  dataStages env waiting "posts" VUndefined props = Ok Nothing.
Proof.
  apply (no_data_skips_the_mappers env waiting "posts" VUndefined
           (VObj [("posts", defaultState)]) defaultState); reflexivity.
Defined.

Lemma waitForData_shadows_defaultData_witness :
  let props := VObj [("posts", defaultState)] in
  dataStages env waiting "posts" VUndefined props
  = dataStages env (without_default waiting) "posts" VUndefined props.
Proof.
  apply (waitForData_shadows_defaultData env waiting "posts" VUndefined);
    reflexivity.
Defined.

Lemma waitForData_needs_data_and_no_error_witness :
  let o := without_default waiting in
  let props := VObj [("posts", record_obj staleRecord)] in
  dataStages env o "posts" VUndefined props = Ok Nothing.
Proof.
  apply (waitForData_needs_data_and_no_error env (without_default waiting)
           "posts" VUndefined (VObj [("posts", record_obj staleRecord)])
           (record_obj staleRecord) (data staleRecord) (error staleRecord));
    reflexivity.
Defined.

Lemma mapDirect_tests_the_data_witness :
  let props := VObj [("posts", data staleRecord)] in
  dataStages env (synced opts) "posts" VUndefined
    (VObj [("posts", record_obj staleRecord)])
  = Ok (Render props).
Proof.
  apply (mapDirect_tests_the_data env (synced opts) "posts" VUndefined
           [("posts", record_obj staleRecord)] (record_obj staleRecord)
           (data staleRecord) VUndefined VNull); try reflexivity.
  intros H. discriminate H.
Defined.

Lemma refetchWhen_must_be_callable_witness :
  componentWillReceiveProps env nullRefetch "posts" (instance defaultRecord)
    VUndefined start
  = (Throw (TypeError "not a function"), start).
Proof.
  apply (refetchWhen_must_be_callable env nullRefetch "posts"
           (instance defaultRecord) VUndefined VUndefined start); reflexivity.
Defined.

Lemma method_body_updates_with_result_witness :
  let query := VObj [("title", VStr "t"); ("data", VStr "forged")] in
  assoc "data" (set_field "data" VNull (spread_of query)) = Some VNull
  ∧ ∃ cmd,
      method_body env opts "posts" (VObj []) (VObj [("posts", defaultState)])
        "create" query start
      = (Ok (dispatch_returns env (dispatched start) cmd), sent cmd start)
      ∧ cmd = StartQuest "posts" (VBound (VFun 0) [VObj [("query", VNull)]]).
Proof.
  apply (method_body_updates_with_result env opts "posts" (VObj [])
           (VObj [("posts", defaultState)]) defaultState VNull
           (VObj [("title", VStr "t"); ("data", VStr "forged")])
           (VFun 1) VUndefined VNull (VFun 0) "create" start); reflexivity.
Defined.

Lemma legacy_mount_updates_witness :
  let thisProps := VObj [("posts", legacyRecord)] in
  let cmd := LegacyLifecycle.UpdateData "posts"
               (LegacyLifecycle.Fetch (VBound (VFun 0) [VObj []])) in
  LegacyLifecycle.componentWillMount legacyOpts "posts" thisProps (VObj [])
  = Ok []
  ∧ LegacyLifecycle.componentDidMount legacyOpts "posts" thisProps (VObj [])
    = Ok [cmd].
Proof.
  apply (legacy_mount_updates legacyOpts "posts"
           (VObj [("posts", legacyRecord)]) (VObj []) legacyRecord (VFun 0)
           (VBool true) (VBool false) VNull); reflexivity.
Defined.

Lemma fetchOnce_predicate_gates_the_fetch_witness :
  canFetchOnce env deferred "posts" (instance defaultRecord) VUndefined
  = Ok VUndefined.
Proof.
  apply (fetchOnce_predicate_gates_the_fetch env deferred "posts"
           (instance defaultRecord) (record_obj defaultRecord) VUndefined
           VNull VUndefined VUndefined 2); reflexivity.
Defined.

Lemma only_a_predicate_defers_witness :
  canFetchOnce env once "posts" (instance defaultRecord) VUndefined
  = Ok (VBool true).
Proof.
  apply (only_a_predicate_defers env once "posts" (instance defaultRecord)
           (record_obj defaultRecord) VUndefined); reflexivity.
Defined.

Lemma mapToProps_sees_mapped_data_witness :
  dataStages mapEnv mapped "posts" VUndefined (VObj [("posts", VObj rawFields)])
  = Ok (Render (VObj [("posts",
                       VObj [("loading", VBool false);
                             ("completed", VBool true); ("error", VNull);
                             ("data", VStr "mapped")]);
                      ("seen", VStr "mapped")])).
Proof.
  apply (mapToProps_sees_mapped_data mapEnv mapped "posts" VUndefined
           [("posts", VObj rawFields)] rawFields [("seen", VStr "mapped")]
           (VStr "raw") (VStr "mapped") 6 7);
    try reflexivity; intros H; discriminate H.
Defined.

End FurtherInstances.
